(** * The request-logging proxy [predict_with_logging] of function/main.py

    A shallow embedding of the HTTP handler that forwards a prediction
    request to the upstream predictor, measures the latency, and writes one
    audit row to BigQuery without letting the audit write influence the
    response.

    The Python objects the handler touches are modelled as follows.
    - JSON-decoded Python values ([None], [bool], [int], [float], [str],
      [list], [dict]) are the inductive [json]; a [dict] is a [gmap] from
      strings.
    - [float] is IEEE binary64, given by the Standard Library's executable
      specification [spec_float] with [prec = 53] and [emax = 1024].
    - The collaborators ([time.time], [datetime.utcnow], [requests.post],
      [bq_client.insert_rows_json]) are oracles gathered in a [World]; what
      the handler does to them is recorded as a chronological trace of
      [event]s.
    - Exceptions and the trace are threaded by a small monad [M]; its state
      also keeps, for each reading of the clock, the number of events that
      had happened before it, so that the order of readings and calls can
      be stated. *)

From Stdlib Require Import ZArith Lia Ascii String Floats.SpecFloat.
From stdpp Require Import base option strings list gmap.

#[local] Set Warnings "-register-all".
#[local] Open Scope Z_scope.

(** ** Python floats: IEEE binary64 *)

Module Float64.

Definition prec : Z := 53.
Definition emax : Z := 1024.

Definition sub (x y : spec_float) : spec_float := SFsub prec emax x y.
Definition mul (x y : spec_float) : spec_float := SFmul prec emax x y.

(** Conversion of a Python [int] operand, as in [x * 1000]. *)
Definition of_Z (z : Z) : spec_float := binary_normalize prec emax z 0 false.


(** Neither an infinity nor a NaN. *)
Definition is_finite (x : spec_float) : bool :=
  match x with
  | S754_zero _ | S754_finite _ _ _ => true
  | S754_infinity _ | S754_nan => false
  end.

Definition ltb (x y : spec_float) : bool := SFltb x y.

Definition zero : spec_float := S754_zero false.



End Float64.

(** ** JSON-decoded Python values *)

Inductive json : Type :=
| JNull                          (* None *)
| JBool (b : bool)
| JInt (z : Z)
| JFloat (f : spec_float)
| JStr (s : string)
| JArr (l : list json)
| JObj (m : gmap string json).

(** Python truth value testing, as used by [if not x]. *)
Definition truthy (v : json) : bool :=
  match v with
  | JNull => false
  | JBool b => b
  | JInt z => negb (z =? 0)
  | JFloat f => match f with S754_zero _ => false | _ => true end
  | JStr s => negb (String.eqb s EmptyString)
  | JArr l => match l with [] => false | _ :: _ => true end
  | JObj m => negb (Nat.eqb (size m) 0)
  end.

(** ** Exceptions *)

(** The exception classes the handler's [except] clauses tell apart.
    [requests.exceptions.JSONDecodeError] inherits from both
    [RequestException] and [json.JSONDecodeError]. *)
Inductive exn : Type :=
| RequestException (msg : string)
| RequestsJSONDecodeError (msg : string)
| JSONDecodeError (msg : string)
| AttributeError (msg : string)
| OtherException (msg : string).

Definition isinstance_RequestException (e : exn) : bool :=
  match e with
  | RequestException _ | RequestsJSONDecodeError _ => true
  | _ => false
  end.

Definition isinstance_JSONDecodeError (e : exn) : bool :=
  match e with
  | JSONDecodeError _ | RequestsJSONDecodeError _ => true
  | _ => false
  end.

(** Outcome of a call that may raise. *)
Inductive result (A : Type) : Type :=
| Ok (a : A)
| Raise (e : exn).
Arguments Ok {A} a.
Arguments Raise {A} e.

(** ** Requests, responses, audit rows *)

(** The inbound flask request, as far as the handler reads it.
    [get_json] is the value of [request.get_json(silent=True)]: [JNull]
    (Python [None]) when the body is absent or does not parse. *)
Record Request : Type := {
  method : string;
  headers : list (string * string);
  remote_addr : option string;
  get_json : json;
}.

(** The upstream's [requests.Response]: [json_] is the outcome of
    [response.json()]. *)
Record Response : Type := {
  status_code : Z;
  content : string;
  json_ : result json;
}.

(** The dictionary handed to [insert_rows_json]. *)
Record Row : Type := {
  row_timestamp : string;
  row_week_start : json;
  row_predictions : json;
  row_client_ip : option string;
  row_response_time_ms : spec_float;
  row_status_code : Z;
}.

(** A response body is a [str] or the upstream's [bytes]. *)
Inductive body : Type :=
| Str (s : string)
| Bytes (b : string).

(** The handler's return value [(body, status_code, headers)]. *)
Definition HttpResult : Type := body * Z * gmap string string.

(** ** Configuration *)

Record Config : Type := {
  PROJECT_ID : option string;
  DATASET_ID : string;
  TABLE_ID : string;
  ORIGINAL_FUNCTION_URL : string;
}.

(** The module-level [os.environ.get] calls. *)
Definition config_of_environ (environ : gmap string string) : Config := {|
  PROJECT_ID := environ !! "GCP_PROJECT";
  DATASET_ID := default "ml_prediction_logs" (environ !! "BIGQUERY_DATASET");
  TABLE_ID := default "potw_predictions" (environ !! "BIGQUERY_TABLE");
  ORIGINAL_FUNCTION_URL :=
    default "https://us-central1-cis-5450-final-project.cloudfunctions.net/predict-potw"
            (environ !! "ORIGINAL_FUNCTION_URL");
|}.

(** [f"{PROJECT_ID}.{DATASET_ID}.{TABLE_ID}"]; [None] formats as ["None"]. *)
Definition table_ref (cfg : Config) : string :=
  default "None" (PROJECT_ID cfg) +:+ "." +:+ DATASET_ID cfg +:+ "." +:+ TABLE_ID cfg.

(** ** Collaborators and the trace *)

Inductive log_line : Type :=
| LogInsertErrors (errors : list json)  (* BigQuery insert errors: ... *)
| LogFailedToLog (e : exn)              (* Failed to log to BigQuery: ... *)
| LogUpstreamError (e : exn)            (* Error calling original function: ... *)
| LogFailedToLogError (e : exn)         (* Failed to log error to BigQuery: ... *)
| LogUnexpected (e : exn).              (* Unexpected error: ... *)

Inductive event : Type :=
| EvPost (url : string) (payload : json) (hdrs : gmap string string) (timeout : Z)
| EvInsert (table : string) (rows : list Row)
| EvPrint (line : log_line).

Record World : Type := {
  (** the successive readings of [time.time()] *)
  time_time : nat -> spec_float;
  (** [datetime.utcnow().isoformat()] *)
  utcnow_isoformat : string;
  (** [requests.post(url, json=payload, ...)] *)
  requests_post : string -> json -> result Response;
  (** [bq_client.insert_rows_json(table_ref, rows)] *)
  insert_rows_json : string -> list Row -> result (list json);
}.

(** The same world with another audit sink. *)
Definition with_sink (w : World) (sink : string -> list Row -> result (list json)) : World := {|
  time_time := time_time w;
  utcnow_isoformat := utcnow_isoformat w;
  requests_post := requests_post w;
  insert_rows_json := sink;
|}.

(** ** Python string operations used for the client address *)

(** [str.isspace] on one Latin-1 code point (header values are Latin-1). *)
Definition is_space (c : ascii) : bool :=
  let n := N_of_ascii c in
  (((9 <=? n) && (n <=? 13)) || ((28 <=? n) && (n <=? 32)) || (n =? 133) || (n =? 160))%N.

Definition is_comma (c : ascii) : bool := Stdlib.Strings.Ascii.eqb c ","%char.

(** ["," in s] *)
Fixpoint contains_comma (s : string) : bool :=
  match s with
  | EmptyString => false
  | String c s' => is_comma c || contains_comma s'
  end.

(** [s.split(",")[0]] *)
Fixpoint split_comma_first (s : string) : string :=
  match s with
  | EmptyString => EmptyString
  | String c s' => if is_comma c then EmptyString else String c (split_comma_first s')
  end.

Fixpoint lstrip (s : string) : string :=
  match s with
  | EmptyString => EmptyString
  | String c s' => if is_space c then lstrip s' else s
  end.

(** [rstrip] by structural recursion: a suffix of white space is dropped. *)
Fixpoint rstrip (s : string) : string :=
  match s with
  | EmptyString => EmptyString
  | String c s' =>
      match rstrip s' with
      | EmptyString => if is_space c then EmptyString else String c EmptyString
      | r => String c r
      end
  end.

(** [s.strip()] *)
Definition strip (s : string) : string := rstrip (lstrip s).

(** Header names compare without regard to ASCII case. *)
Definition ascii_lower (c : ascii) : ascii :=
  let n := N_of_ascii c in
  if ((65 <=? n) && (n <=? 90))%N then ascii_of_N (n + 32) else c.

Fixpoint lower (s : string) : string :=
  match s with
  | EmptyString => EmptyString
  | String c s' => String (ascii_lower c) (lower s')
  end.

(** [request.headers.get(key, default)] *)
Fixpoint headers_get (hs : list (string * string)) (key : string) (dflt : option string)
  : option string :=
  match hs with
  | [] => dflt
  | (k, v) :: hs' => if String.eqb (lower k) (lower key) then Some v else headers_get hs' key dflt
  end.

(** Lines 39-41: the forwarded-for header, else the remote address; of a
    comma-separated list the first entry, stripped. *)
Definition get_client_ip (request : Request) : option string :=
  let client_ip := headers_get (headers request) "X-Forwarded-For" (remote_addr request) in
  match client_ip with
  | Some ip =>
      if negb (String.eqb ip EmptyString) && contains_comma ip
      then Some (strip (split_comma_first ip))
      else client_ip
  | None => None
  end.

(** ** Response headers and bodies *)

Definition cors_headers : gmap string string :=
  <["Access-Control-Allow-Origin" := "*"]>
  (<["Access-Control-Allow-Methods" := "POST, OPTIONS"]>
  (<["Access-Control-Allow-Headers" := "Content-Type"]> ∅)).

(** [{"Content-Type": "application/json", **headers}] *)
Definition json_headers (hdrs : gmap string string) : gmap string string :=
  hdrs ∪ <["Content-Type" := "application/json"]> ∅.

Definition dquote : string := String "034"%char EmptyString.

(** [json.dumps({"error": msg})] for a message that needs no escaping. *)
Definition json_dumps_error (msg : string) : string :=
  "{" +:+ dquote +:+ "error" +:+ dquote +:+ ": " +:+ dquote +:+ msg +:+ dquote +:+ "}".

(** ** The handler monad: exceptions, clock position and trace *)

Record State : Type := {
  ticks : nat;          (* readings of [time.time()] taken so far *)
  trace : list event;   (* what has been done, oldest first *)
  reads : list nat;     (* for each reading of the clock, oldest first, the
                           number of events that had happened before it *)
}.

Definition M (A : Type) : Type := State -> result A * State.

#[global] Instance M_ret : MRet M := fun A a st => (Ok a, st).

#[global] Instance M_bind : MBind M := fun A B f m st =>
  match m st with
  | (Ok a, st') => f a st'
  | (Raise e, st') => (Raise e, st')
  end.

Definition raise {A : Type} (e : exn) : M A := fun st => (Raise e, st).

(** [try: body  except ...: handler]. [handler e = None] when no clause
    matches [e], which then propagates. *)
Definition try_except {A : Type} (body : M A) (handler : exn -> option (M A)) : M A :=
  fun st =>
    match body st with
    | (Ok a, st') => (Ok a, st')
    | (Raise e, st') =>
        match handler e with
        | Some h => h st'
        | None => (Raise e, st')
        end
    end.

Definition emit (ev : event) : M () := fun st =>
  (Ok (), {| ticks := ticks st; trace := trace st ++ [ev]; reads := reads st |}).

Definition lift {A : Type} (r : result A) : M A := fun st => (r, st).

Definition print (line : log_line) : M () := emit (EvPrint line).

(** [x.get(key, default)]: only a [dict] has the method. *)
Definition py_get (x : json) (key : string) (dflt : json) : M json :=
  match x with
  | JObj m => mret (default dflt (m !! key))
  | _ => raise (AttributeError "object has no attribute 'get'")
  end.

Definition initial_state : State := {| ticks := 0%nat; trace := []; reads := [] |}.

Definition run {A : Type} (m : M A) : result A * list event :=
  let '(r, st) := m initial_state in (r, trace st).

(** ** The handler *)

Section Handler.

Variable cfg : Config.
Variable w : World.

(** [time.time()]: the next reading of the wall clock. *)
Definition now : M spec_float := fun st =>
  (Ok (time_time w (ticks st)),
   {| ticks := S (ticks st); trace := trace st; reads := reads st ++ [length (trace st)] |}).

(** [requests.post(ORIGINAL_FUNCTION_URL, json=request_json,
    headers={"Content-Type": "application/json"}, timeout=30)] *)
Definition post (request_json : json) : M Response :=
  emit (EvPost (ORIGINAL_FUNCTION_URL cfg) request_json
               (<["Content-Type" := "application/json"]> ∅) 30);;
  lift (requests_post w (ORIGINAL_FUNCTION_URL cfg) request_json).

(** [bq_client.insert_rows_json(table_ref, [row])] *)
Definition insert (table : string) (rows : list Row) : M (list json) :=
  emit (EvInsert table rows);;
  lift (insert_rows_json w table rows).

(** [(time.time() - start_time) * 1000] *)
Definition elapsed_ms (start_time : spec_float) : M spec_float :=
  t ← now;
  mret (Float64.mul (Float64.sub t start_time) (Float64.of_Z 1000)).

(** Lines 84-89. *)
Definition parse_predictions (response : Response) : M json :=
  if status_code response =? 200 then
    try_except (lift (json_ response))
      (fun e => if isinstance_JSONDecodeError e then Some (mret (JArr [])) else None)
  else mret (JArr []).

(** Lines 92-108: the audit write after an upstream response. *)
Definition log_to_bigquery (week_start predictions : json) (client_ip : option string)
    (response_time_ms : spec_float) (status : Z) : M () :=
  try_except
    (let table := table_ref cfg in
     let row := {| row_timestamp := utcnow_isoformat w;
                   row_week_start := week_start;
                   row_predictions := predictions;
                   row_client_ip := client_ip;
                   row_response_time_ms := response_time_ms;
                   row_status_code := status |} in
     errors ← insert table [row];
     match errors with
     | [] => mret ()
     | _ :: _ => print (LogInsertErrors errors)
     end)
    (fun e => Some (print (LogFailedToLog e))).

(** Lines 122-134: the audit write after a transport error. *)
Definition log_error_to_bigquery (request_json : json) (client_ip : option string)
    (response_time_ms : spec_float) : M () :=
  try_except
    (let table := table_ref cfg in
     week_start ← py_get request_json "week_start" (JStr "unknown");
     let row := {| row_timestamp := utcnow_isoformat w;
                   row_week_start := week_start;
                   row_predictions := JArr [];
                   row_client_ip := client_ip;
                   row_response_time_ms := response_time_ms;
                   row_status_code := 500 |} in
     insert table [row];;
     mret ())
    (fun log_error => Some (print (LogFailedToLogError log_error))).

(** Lines 72-115: forward the request, time it, audit it, pass the
    upstream's answer through. *)
Definition forward (request_json week_start : json) (client_ip : option string)
    (start_time : spec_float) (headers : gmap string string) : M HttpResult :=
  response ← post request_json;
  response_time_ms ← elapsed_ms start_time;
  let status := status_code response in
  predictions ← parse_predictions response;
  log_to_bigquery week_start predictions client_ip response_time_ms status;;
  mret (Bytes (content response), status, json_headers headers).

(** Lines 117-140: [except requests.exceptions.RequestException as e]. *)
Definition on_request_exception (e : exn) (request_json : json) (client_ip : option string)
    (start_time : spec_float) (headers : gmap string string) : M HttpResult :=
  response_time_ms ← elapsed_ms start_time;
  print (LogUpstreamError e);;
  log_error_to_bigquery request_json client_ip response_time_ms;;
  mret (Str (json_dumps_error "Failed to get predictions"), 500, json_headers headers).

(** Lines 142-148: [except Exception as e]. *)
Definition on_exception (e : exn) (headers : gmap string string) : M HttpResult :=
  print (LogUnexpected e);;
  mret (Str (json_dumps_error "Internal server error"), 500, json_headers headers).

(** The two [except] clauses of the outer [try], tried in order. *)
Definition except_clauses (request_json : json) (client_ip : option string)
    (start_time : spec_float) (headers : gmap string string) (e : exn)
  : option (M HttpResult) :=
  if isinstance_RequestException e
  then Some (on_request_exception e request_json client_ip start_time headers)
  else Some (on_exception e headers).

Definition predict_with_logging (request : Request) : M HttpResult :=
  start_time ← now;
  let client_ip := get_client_ip request in
  let headers := cors_headers in
  if String.eqb (method request) "OPTIONS" then
    mret (Str EmptyString, 204, headers)
  else
    let request_json := get_json request in
    try_except
      (if negb (truthy request_json) then
         mret (Str (json_dumps_error "Request must be JSON"), 400, json_headers headers)
       else
         week_start ← py_get request_json "week_start" JNull;
         if negb (truthy week_start) then
           mret (Str (json_dumps_error "week_start is required"), 400, json_headers headers)
         else
           forward request_json week_start client_ip start_time headers)
      (except_clauses request_json client_ip start_time headers).

(** One invocation from a fresh process state. *)
Definition handle (request : Request) : result HttpResult * list event :=
  run (predict_with_logging request).

End Handler.

(** ** Observations on a trace *)

Definition is_post (ev : event) : bool :=
  match ev with EvPost _ _ _ _ => true | _ => false end.

Definition is_insert (ev : event) : bool :=
  match ev with EvInsert _ _ => true | _ => false end.

(** The payloads of the upstream calls made, in order. *)
Fixpoint upstream_calls (tr : list event) : list json :=
  match tr with
  | [] => []
  | EvPost _ payload _ _ :: tr' => payload :: upstream_calls tr'
  | _ :: tr' => upstream_calls tr'
  end.

(** The rows of every attempted insertion, in order. *)
Fixpoint audit_attempts (tr : list event) : list (list Row) :=
  match tr with
  | [] => []
  | EvInsert _ rows :: tr' => rows :: audit_attempts tr'
  | _ :: tr' => audit_attempts tr'
  end.

(** ** Vocabulary of the properties *)

(** The [week_start] entry of a decoded body, when the body is an object. *)
Definition week_start_of (v : json) : option json :=
  match v with
  | JObj m => m !! "week_start"
  | _ => None
  end.

(** A request that passes validation: not a preflight, and a JSON object
    whose [week_start] is present and not empty. *)
Definition valid_request (request : Request) : bool :=
  negb (String.eqb (method request) "OPTIONS") &&
  match week_start_of (get_json request) with
  | Some ws => truthy ws
  | None => false
  end.

Definition is_array (v : json) : bool :=
  match v with JArr _ => true | _ => false end.

(** Length of a decoded prediction sequence. *)
Definition predictions_length (v : json) : option nat :=
  match v with JArr l => Some (length l) | _ => None end.

(** The upstream call the handler makes for [request]. *)
Definition upstream (cfg : Config) (w : World) (request : Request) : result Response :=
  requests_post w (ORIGINAL_FUNCTION_URL cfg) (get_json request).

(** [(t - start) * 1000] for the [k]-th clock reading [t] and the reading
    [start] taken at handler entry. *)
Definition response_time (w : World) (k : nat) : spec_float :=
  Float64.mul (Float64.sub (time_time w k) (time_time w 0%nat)) (Float64.of_Z 1000).

Definition audit_row (w : World) (request : Request) (ws predictions : json)
    (k : nat) (status : Z) : Row := {|
  row_timestamp := utcnow_isoformat w;
  row_week_start := ws;
  row_predictions := predictions;
  row_client_ip := get_client_ip request;
  row_response_time_ms := response_time w k;
  row_status_code := status;
|}.

(** What the success path prints after the sink has answered. *)
Definition sink_log (r : result (list json)) : list event :=
  match r with
  | Ok [] => []
  | Ok errors => [EvPrint (LogInsertErrors errors)]
  | Raise e => [EvPrint (LogFailedToLog e)]
  end.

(** What the transport-error path prints after the sink has answered. *)
Definition sink_error_log (r : result (list json)) : list event :=
  match r with
  | Ok _ => []
  | Raise e => [EvPrint (LogFailedToLogError e)]
  end.

Definition post_event (cfg : Config) (request : Request) : event :=
  EvPost (ORIGINAL_FUNCTION_URL cfg) (get_json request)
         (<["Content-Type" := "application/json"]> ∅) 30.

Definition error_response (msg : string) (status : Z) : HttpResult :=
  (Str (json_dumps_error msg), status, json_headers cors_headers).

(** The requests for which the handler gets as far as an audit write:
    validation passed, and the upstream call returned a response with a
    status other than 200, or a 200 response whose body decodes or fails
    to decode with a [json.JSONDecodeError] or a [RequestException]
    (lines 85-89 and 117), or raised a [RequestException]. *)
Definition reaches_audit_write (cfg : Config) (w : World) (request : Request) : bool :=
  valid_request request &&
  match upstream cfg w request with
  | Ok response =>
      if status_code response =? 200 then
        match json_ response with
        | Ok _ => true
        | Raise e => isinstance_JSONDecodeError e || isinstance_RequestException e
        end
      else true
  | Raise e => isinstance_RequestException e
  end.

(** The calls made to the collaborators: the trace without the log lines. *)
Fixpoint outbound (tr : list event) : list event :=
  match tr with
  | [] => []
  | EvPrint _ :: tr' => outbound tr'
  | ev :: tr' => ev :: outbound tr'
  end.

(** Two states look alike from outside the process log. *)
Definition alike (st1 st2 : State) : Prop :=
  ticks st1 = ticks st2 /\ outbound (trace st1) = outbound (trace st2).

(** Two computations agree when, started in states that look alike, they
    end with the same outcome in states that look alike; what they print
    may differ. *)
Definition agree {A : Type} (m1 m2 : M A) : Prop :=
  forall st1 st2, alike st1 st2 ->
    (m1 st1).1 = (m2 st2).1 /\ alike (m1 st1).2 (m2 st2).2.

Definition agree_handlers {A : Type} (h1 h2 : exn -> option (M A)) : Prop :=
  forall e,
    match h1 e, h2 e with
    | Some k1, Some k2 => agree k1 k2
    | None, None => True
    | _, _ => False
    end.

(** The outcome of a run answers [resp] without touching the upstream or
    the audit sink. *)
Definition quiet_answer (out : result HttpResult * list event) (resp : HttpResult) : Prop :=
  out.1 = Ok resp /\ upstream_calls out.2 = [] /\ audit_attempts out.2 = [].

(** [week_start] is missing from the decoded body, or empty. *)
Definition week_start_absent (v : json) : bool :=
  match week_start_of v with
  | Some ws => negb (truthy ws)
  | None => true
  end.

(** *** Three properties in the wording of the specification *)

(** "For every POST request whose body is valid JSON in which the field
    week_start is missing or empty, the handler returns status 400 with
    body week_start is required, makes no upstream call, and attempts no
    audit row." *)
Definition stated_week_start_rule (cfg : Config) (w : World) (request : Request) : Prop :=
  method request = "POST" ->
  get_json request <> JNull ->
  week_start_absent (get_json request) = true ->
  quiet_answer (handle cfg w request) (error_response "week_start is required" 400).

(** "For every non-OPTIONS request exactly one audit row insertion is
    attempted; for OPTIONS requests none is attempted." *)
Definition stated_one_row_per_request (cfg : Config) (w : World) (request : Request) : Prop :=
  (method request <> "OPTIONS" ->
   length (audit_attempts (handle cfg w request).2) = 1%nat) /\
  (method request = "OPTIONS" ->
   audit_attempts (handle cfg w request).2 = []).


(** ** Sample data *)

Definition cfg0 : Config := config_of_environ ∅.

(** [m * 2^e] as a binary64 number. *)
Definition float_lit (m e : Z) : spec_float :=
  binary_normalize Float64.prec Float64.emax m e false.

Definition week_2024 : json := JObj (<["week_start" := JStr "2024-01-01"]> ∅).

Definition post_request (payload : json) : Request := {|
  method := "POST";
  headers := [("X-Forwarded-For", "203.0.113.7, 10.0.0.1")];
  remote_addr := Some "10.0.0.1";
  get_json := payload;
|}.

Definition options_request : Request := {|
  method := "OPTIONS";
  headers := [];
  remote_addr := Some "10.0.0.1";
  get_json := JNull;
|}.

Definition player_a : json :=
  JObj (<["conference" := JStr "East"]>
       (<["name" := JStr "Player A"]>
       (<["probability_pct" := JFloat (float_lit 175 (-1))]>
       (<["rank" := JInt 1]> ∅)))).

Definition response_of (status : Z) (raw : string) (decoded : result json) : Response := {|
  status_code := status;
  content := raw;
  json_ := decoded;
|}.

Definition sink_accepts : string -> list Row -> result (list json) :=
  fun _ _ => Ok [].

Definition sink_rejects : string -> list Row -> result (list json) :=
  fun _ _ => Ok [JObj (<["index" := JInt 0]> ∅)].

Definition sink_raises : string -> list Row -> result (list json) :=
  fun _ _ => Raise (OtherException "503 backend unavailable").

(** A world whose clock reads [t0] at entry and [t1] afterwards. *)
Definition world_of (t0 t1 : spec_float) (up : result Response) : World := {|
  time_time := fun k => match k with O => t0 | S _ => t1 end;
  utcnow_isoformat := "2024-01-01T12:00:00.000000";
  requests_post := fun _ _ => up;
  insert_rows_json := sink_accepts;
|}.

(** 1704110400.0 and a quarter of a second later. *)
Definition noon : spec_float := float_lit 1704110400 0.
Definition noon_quarter : spec_float := float_lit 6816441601 (-2).

Definition world_up (up : result Response) : World := world_of noon noon_quarter up.

Definition world_player : World :=
  world_up (Ok (response_of 200 "[{...}]" (Ok (JArr [player_a])))).

Definition world_object : World :=
  world_up (Ok (response_of 200 "{...}" (Ok player_a))).

Definition world_unavailable : World :=
  world_up (Ok (response_of 503 "Service Unavailable"
                  (Raise (RequestsJSONDecodeError "Expecting value")))).

Definition world_timeout : World :=
  world_up (Raise (RequestException "Read timed out. (read timeout=30)")).

(** The wall clock is set back by a second while the upstream is called. *)
Definition world_clock_back : World :=
  world_of (float_lit 1704110400 0) (float_lit 1704110399 0)
           (Ok (response_of 200 "[]" (Ok (JArr [])))).

(** ** The handler run from any state of the process *)

(** [(t - start) * 1000] for the clock readings number [k] ([t]) and [k0]
    ([start]). *)
Definition elapsed (w : World) (k0 k : nat) : spec_float :=
  Float64.mul (Float64.sub (time_time w k) (time_time w k0)) (Float64.of_Z 1000).

(** The row written by an invocation that read the clock at position [k0]
    on entry and at position [k] for the elapsed time. *)
Definition row_at (w : World) (request : Request) (ws predictions : json)
    (k0 k : nat) (status : Z) : Row := {|
  row_timestamp := utcnow_isoformat w;
  row_week_start := ws;
  row_predictions := predictions;
  row_client_ip := get_client_ip request;
  row_response_time_ms := elapsed w k0 k;
  row_status_code := status;
|}.

(** What lines 84-89 make of the upstream's response. *)
Inductive decoded (response : Response) : json -> Prop :=
| DecodedSkipped :
    status_code response <> 200 ->
    decoded response (JArr [])
| DecodedValue (v : json) :
    status_code response = 200 ->
    json_ response = Ok v ->
    decoded response v
| DecodedInvalid (e : exn) :
    status_code response = 200 ->
    json_ response = Raise e ->
    isinstance_JSONDecodeError e = true ->
    decoded response (JArr []).

(** The ways through [predict_with_logging]: for an invocation entered with
    the clock at position [k0], the response, the number of clock readings
    taken, and the events appended to the trace. *)
Inductive outcome (cfg : Config) (w : World) (request : Request) (k0 : nat)
  : HttpResult -> nat -> list event -> Prop :=
| Preflight :
    method request = "OPTIONS" ->
    outcome cfg w request k0 (Str EmptyString, 204, cors_headers) 1 []
| NotJson :
    method request <> "OPTIONS" ->
    truthy (get_json request) = false ->
    outcome cfg w request k0 (error_response "Request must be JSON" 400) 1 []
| NoDict (e : exn) :
    method request <> "OPTIONS" ->
    truthy (get_json request) = true ->
    (forall m, get_json request <> JObj m) ->
    outcome cfg w request k0 (error_response "Internal server error" 500) 1
            [EvPrint (LogUnexpected e)]
| NoWeekStart (m : gmap string json) :
    method request <> "OPTIONS" ->
    get_json request = JObj m ->
    truthy (JObj m) = true ->
    truthy (default JNull (m !! "week_start")) = false ->
    outcome cfg w request k0 (error_response "week_start is required" 400) 1 []
| Forwarded (ws : json) (response : Response) (predictions : json) :
    valid_request request = true ->
    week_start_of (get_json request) = Some ws ->
    upstream cfg w request = Ok response ->
    decoded response predictions ->
    let row := row_at w request ws predictions k0 (S k0) (status_code response) in
    outcome cfg w request k0
            (Bytes (content response), status_code response, json_headers cors_headers) 2
            (post_event cfg request :: EvInsert (table_ref cfg) [row]
               :: sink_log (insert_rows_json w (table_ref cfg) [row]))
| TransportError (ws : json) (e : exn) :
    valid_request request = true ->
    week_start_of (get_json request) = Some ws ->
    upstream cfg w request = Raise e ->
    isinstance_RequestException e = true ->
    let row := row_at w request ws (JArr []) k0 (S k0) 500 in
    outcome cfg w request k0 (error_response "Failed to get predictions" 500) 2
            (post_event cfg request :: EvPrint (LogUpstreamError e)
               :: EvInsert (table_ref cfg) [row]
               :: sink_error_log (insert_rows_json w (table_ref cfg) [row]))
| UpstreamUnexpected (e : exn) :
    valid_request request = true ->
    upstream cfg w request = Raise e ->
    isinstance_RequestException e = false ->
    outcome cfg w request k0 (error_response "Internal server error" 500) 1
            [post_event cfg request; EvPrint (LogUnexpected e)]
| DecodeTransportError (ws : json) (response : Response) (e : exn) :
    valid_request request = true ->
    week_start_of (get_json request) = Some ws ->
    upstream cfg w request = Ok response ->
    status_code response = 200 ->
    json_ response = Raise e ->
    isinstance_JSONDecodeError e = false ->
    isinstance_RequestException e = true ->
    let row := row_at w request ws (JArr []) k0 (S (S k0)) 500 in
    outcome cfg w request k0 (error_response "Failed to get predictions" 500) 3
            (post_event cfg request :: EvPrint (LogUpstreamError e)
               :: EvInsert (table_ref cfg) [row]
               :: sink_error_log (insert_rows_json w (table_ref cfg) [row]))
| DecodeUnexpected (response : Response) (e : exn) :
    valid_request request = true ->
    upstream cfg w request = Ok response ->
    status_code response = 200 ->
    json_ response = Raise e ->
    isinstance_JSONDecodeError e = false ->
    isinstance_RequestException e = false ->
    outcome cfg w request k0 (error_response "Internal server error" 500) 2
            [post_event cfg request; EvPrint (LogUnexpected e)].

(** Where the clock is read by an invocation that reads it [n] times and is
    entered when [k] events have happened: once on entry (line 36), then
    right after the call to the upstream (lines 80 and 118), before
    anything is printed or written to the sink. *)
Definition readings (k n : nat) : list nat := k :: replicate (n - 1) (S k).


(** Successive invocations in one process. The module keeps nothing between
    them but the configuration read at start-up (lines 17-27). *)
Fixpoint serve (cfg : Config) (w : World) (requests : list Request) : M (list HttpResult) :=
  match requests with
  | [] => mret []
  | request :: rest =>
      resp ← predict_with_logging cfg w request;
      resps ← serve cfg w rest;
      mret (resp :: resps)
  end.

(** How many of [requests] get as far as the audit write. *)
Fixpoint audited (cfg : Config) (w : World) (requests : list Request) : nat :=
  match requests with
  | [] => 0
  | request :: rest =>
      (if reaches_audit_write cfg w request then 1 else 0) + audited cfg w rest
  end%nat.

(** The insert events of a trace. *)
Fixpoint inserts (tr : list event) : list (string * list Row) :=
  match tr with
  | [] => []
  | EvInsert table rows :: tr' => (table, rows) :: inserts tr'
  | _ :: tr' => inserts tr'
  end.

(** The lines printed, in order. *)
Fixpoint printed (tr : list event) : list log_line :=
  match tr with
  | [] => []
  | EvPrint line :: tr' => line :: printed tr'
  | _ :: tr' => printed tr'
  end.

(** ** White space around the client address *)

(** [s] is empty or begins with a character that is no white space. *)
Definition clean_head (s : string) : bool :=
  match s with
  | EmptyString => true
  | String c _ => negb (is_space c)
  end.

(** ** The audit row as the dictionary of lines 94-101 *)

Definition row_dict (row : Row) : gmap string json :=
  <["timestamp" := JStr (row_timestamp row)]>
  (<["week_start" := row_week_start row]>
  (<["predictions" := row_predictions row]>
  (<["client_ip" := from_option JStr JNull (row_client_ip row)]>
  (<["response_time_ms" := JFloat (row_response_time_ms row)]>
  (<["status_code" := JInt (row_status_code row)]> ∅))))).

(** ** The deployment: __main__.py *)

(** A column of the BigQuery table schema (lines 32-92). *)
Inductive column : Type :=
| Column (name type mode : string) (fields : list column).

Definition column_name (c : column) : string :=
  match c with Column name _ _ _ => name end.

Definition column_mode (c : column) : string :=
  match c with Column _ _ mode _ => mode end.

Definition table_schema : list column := [
  Column "timestamp" "TIMESTAMP" "REQUIRED" [];
  Column "week_start" "STRING" "REQUIRED" [];
  Column "predictions" "RECORD" "REPEATED" [
    Column "conference" "STRING" "NULLABLE" [];
    Column "name" "STRING" "NULLABLE" [];
    Column "probability_pct" "FLOAT" "NULLABLE" [];
    Column "rank" "INTEGER" "NULLABLE" []
  ];
  Column "client_ip" "STRING" "NULLABLE" [];
  Column "response_time_ms" "FLOAT" "NULLABLE" [];
  Column "status_code" "INTEGER" "NULLABLE" []
].

(** The stack configuration read at lines 8-13. *)
Record Stack : Type := {
  project : string;
  region : string;
  function_name : string;
}.

(** [dataset_id] and [table_id] of the resources created at lines 17-29. *)
Definition dataset_id : string := "ml_prediction_logs".
Definition table_id : string := "potw_predictions".

(** The [environment_variables] of the instrumented function (lines 360-372). *)
Definition environment_variables (stack : Stack) : gmap string string :=
  <["GCP_PROJECT" := project stack]>
  (<["BIGQUERY_DATASET" := dataset_id]>
  (<["BIGQUERY_TABLE" := table_id]>
  (<["ORIGINAL_FUNCTION_URL" :=
       "https://" +:+ region stack +:+ "-" +:+ project stack +:+ ".cloudfunctions.net/"
       +:+ function_name stack]> ∅))).

(** The export [bigquery_table_full_id] (lines 400-403). *)
Definition bigquery_table_full_id (stack : Stack) : string :=
  project stack +:+ "." +:+ dataset_id +:+ "." +:+ table_id.

(** A column of [schema] marked REQUIRED has a value other than [None]. *)
Definition required_present (schema : list column) (d : gmap string json) : Prop :=
  forall c, In c schema -> column_mode c = "REQUIRED" ->
    exists v, d !! column_name c = Some v /\ v <> JNull.

(** A value of the shape a column declares, in a JSON row handed to
    [insert_rows_json]: a string for STRING and TIMESTAMP, a number for
    FLOAT, an integer for INTEGER, for RECORD an object with no other keys
    than the declared fields, each of its shape; a list of such values for
    a REPEATED column, and [None] allowed for a NULLABLE one. *)
Fixpoint conforms (c : column) (v : json) : bool :=
  match c with
  | Column _ type mode fields =>
      let value (x : json) : bool :=
        if String.eqb type "STRING" || String.eqb type "TIMESTAMP" then
          match x with JStr _ => true | _ => false end
        else if String.eqb type "FLOAT" then
          match x with JFloat _ | JInt _ => true | _ => false end
        else if String.eqb type "INTEGER" then
          match x with JInt _ => true | _ => false end
        else if String.eqb type "RECORD" then
          match x with
          | JObj m =>
              forallb (fun f => conforms f (default JNull (m !! column_name f))) fields
              && bool_decide (dom m ⊆ list_to_set (map column_name fields))
          | _ => false
          end
        else false in
      if String.eqb mode "REPEATED" then
        match v with JArr l => forallb value l | _ => false end
      else if String.eqb mode "REQUIRED" then value v
      else match v with JNull => true | _ => value v end
  end.

(** Every column of [schema] has in [d] a value of its shape. *)
Definition row_conforms (schema : list column) (d : gmap string json) : bool :=
  forallb (fun c => conforms c (default JNull (d !! column_name c))) schema.

Definition sample_stack : Stack := {|
  project := "cis-5450-final-project";
  region := "us-central1";
  function_name := "predict-potw";
|}.

(** A response whose body is no JSON. *)
Definition world_garbled : World :=
  world_up (Ok (response_of 200 "<html>oops</html>"
                  (Raise (RequestsJSONDecodeError "Expecting value")))).

(** [requests.post] fails with something that is no [RequestException]. *)
Definition world_broken : World :=
  world_up (Raise (OtherException "unexpected")).

(** * Properties *)

(** ** Equations of the monad *)

Lemma bind_run {A B : Type} (m : M A) (f : A -> M B) (st : State) :
  (m ≫= f) st = match m st with
                | (Ok a, st') => f a st'
                | (Raise e, st') => (Raise e, st')
                end.
Proof. reflexivity. Qed.

Lemma ret_run {A : Type} (a : A) (st : State) : (mret a : M A) st = (Ok a, st).
Proof. reflexivity. Qed.

Lemma try_except_run {A : Type} (body : M A) (handler : exn -> option (M A)) (st : State) :
  try_except body handler st =
  match body st with
  | (Ok a, st') => (Ok a, st')
  | (Raise e, st') => match handler e with Some h => h st' | None => (Raise e, st') end
  end.
Proof. reflexivity. Qed.

Lemma print_run (line : log_line) (st : State) :
  print line st =
  (Ok (), {| ticks := ticks st; trace := trace st ++ [EvPrint line]; reads := reads st |}).
Proof. reflexivity. Qed.

Lemma py_get_dict (m : gmap string json) (key : string) (dflt : json) (st : State) :
  py_get (JObj m) key dflt st = (Ok (default dflt (m !! key)), st).
Proof. reflexivity. Qed.

Lemma py_get_no_dict (x : json) (key : string) (dflt : json) (st : State) :
  (forall m, x <> JObj m) ->
  exists msg, py_get x key dflt st = (Raise (AttributeError msg), st).
Proof.
  intros Hx. destruct x; try (eexists; reflexivity). destruct (Hx m eq_refl).
Qed.

(** ** Truth values and validation *)

Lemma truthy_dict (m : gmap string json) (key : string) (v : json) :
  m !! key = Some v -> truthy (JObj m) = true.
Proof.
  intros Hk. simpl. destruct (size m) eqn:Hs; [|reflexivity].
  apply map_size_empty_inv in Hs. subst m. rewrite lookup_empty in Hk. discriminate.
Qed.

Lemma truthy_str (s : string) : truthy (JStr s) = true <-> s <> EmptyString.
Proof.
  simpl. rewrite negb_true_iff. apply String.eqb_neq.
Qed.

Lemma valid_request_inv (request : Request) :
  valid_request request = true ->
  exists m ws,
    (method request =? "OPTIONS")%string = false /\
    get_json request = JObj m /\
    m !! "week_start" = Some ws /\
    truthy ws = true /\
    truthy (JObj m) = true.
Proof.
  unfold valid_request, week_start_of. intros H.
  apply andb_prop in H as [Hm Hw]. apply negb_true_iff in Hm.
  destruct (get_json request) as [| | | | | |m]; try discriminate.
  destruct (m !! "week_start") as [ws|] eqn:Hk; try discriminate.
  exists m, ws. repeat split; try assumption. exact (truthy_dict m _ ws Hk).
Qed.

(** ** What a trace shows *)

Lemma audit_attempts_app (tr1 tr2 : list event) :
  audit_attempts (tr1 ++ tr2) = audit_attempts tr1 ++ audit_attempts tr2.
Proof.
  induction tr1 as [|ev tr1 IH]; [reflexivity|].
  destruct ev; simpl; rewrite IH; reflexivity.
Qed.

Lemma upstream_calls_app (tr1 tr2 : list event) :
  upstream_calls (tr1 ++ tr2) = upstream_calls tr1 ++ upstream_calls tr2.
Proof.
  induction tr1 as [|ev tr1 IH]; [reflexivity|].
  destruct ev; simpl; rewrite IH; reflexivity.
Qed.

Lemma audit_attempts_sink_log (r : result (list json)) : audit_attempts (sink_log r) = [].
Proof. destruct r as [[|err errs]|e]; reflexivity. Qed.

Lemma audit_attempts_sink_error_log (r : result (list json)) :
  audit_attempts (sink_error_log r) = [].
Proof. destruct r as [errs|e]; reflexivity. Qed.

Lemma upstream_calls_sink_log (r : result (list json)) : upstream_calls (sink_log r) = [].
Proof. destruct r as [[|err errs]|e]; reflexivity. Qed.

Lemma upstream_calls_sink_error_log (r : result (list json)) :
  upstream_calls (sink_error_log r) = [].
Proof. destruct r as [errs|e]; reflexivity. Qed.

Create Rewrite HintDb trace.

#[local] Hint Rewrite audit_attempts_app upstream_calls_app audit_attempts_sink_log
  audit_attempts_sink_error_log upstream_calls_sink_log upstream_calls_sink_error_log
  : trace.

(** ** The blocks of the handler, run from an arbitrary state *)

Section Runs.

Variable cfg : Config.
Variable w : World.

Lemma now_run (st : State) :
  now w st =
  (Ok (time_time w (ticks st)),
   {| ticks := S (ticks st); trace := trace st; reads := reads st ++ [length (trace st)] |}).
Proof. reflexivity. Qed.

Lemma post_run (payload : json) (st : State) :
  post cfg w payload st =
  (requests_post w (ORIGINAL_FUNCTION_URL cfg) payload,
   {| ticks := ticks st;
      trace := trace st ++ [EvPost (ORIGINAL_FUNCTION_URL cfg) payload
                              (<["Content-Type" := "application/json"]> ∅) 30];
      reads := reads st |}).
Proof. reflexivity. Qed.

Lemma elapsed_ms_run (start : spec_float) (st : State) :
  elapsed_ms w start st =
  (Ok (Float64.mul (Float64.sub (time_time w (ticks st)) start) (Float64.of_Z 1000)),
   {| ticks := S (ticks st); trace := trace st; reads := reads st ++ [length (trace st)] |}).
Proof. reflexivity. Qed.

(** The audit write never raises, whatever the sink does. *)
Lemma log_to_bigquery_run (ws preds : json) (ip : option string) (ms : spec_float)
    (status : Z) (st : State) :
  let row := Build_Row (utcnow_isoformat w) ws preds ip ms status in
  log_to_bigquery cfg w ws preds ip ms status st =
  (Ok (), {| ticks := ticks st;
             trace := trace st ++ EvInsert (table_ref cfg) [row]
                        :: sink_log (insert_rows_json w (table_ref cfg) [row]);
             reads := reads st |}).
Proof.
  unfold log_to_bigquery, insert. cbn zeta.
  rewrite try_except_run, !bind_run. unfold emit at 1, lift at 1. cbn [ticks trace reads].
  destruct (insert_rows_json w _ _) as [[|err errs]|e]; cbn [sink_log];
    rewrite ?ret_run, ?print_run; cbn [ticks trace reads]; rewrite <- ?app_assoc; reflexivity.
Qed.

Lemma log_error_to_bigquery_run (m : gmap string json) (ip : option string)
    (ms : spec_float) (st : State) :
  let row := Build_Row (utcnow_isoformat w) (default (JStr "unknown") (m !! "week_start"))
                       (JArr []) ip ms 500 in
  log_error_to_bigquery cfg w (JObj m) ip ms st =
  (Ok (), {| ticks := ticks st;
             trace := trace st ++ EvInsert (table_ref cfg) [row]
                        :: sink_error_log (insert_rows_json w (table_ref cfg) [row]);
             reads := reads st |}).
Proof.
  unfold log_error_to_bigquery, insert. cbn zeta.
  rewrite try_except_run, bind_run, py_get_dict, !bind_run.
  unfold emit at 1, lift at 1. cbn [ticks trace reads].
  destruct (insert_rows_json w _ _) as [errs|e]; cbn [sink_error_log];
    rewrite ?ret_run, ?print_run; cbn [ticks trace reads]; rewrite <- ?app_assoc, ?app_nil_r; reflexivity.
Qed.

Lemma parse_predictions_not_200 (response : Response) (st : State) :
  status_code response <> 200 -> parse_predictions response st = (Ok (JArr []), st).
Proof.
  intros H. unfold parse_predictions. apply Z.eqb_neq in H. rewrite H. reflexivity.
Qed.

Lemma parse_predictions_decoded (response : Response) (v : json) (st : State) :
  status_code response = 200 -> json_ response = Ok v ->
  parse_predictions response st = (Ok v, st).
Proof.
  intros H J. unfold parse_predictions, try_except, lift. rewrite H, J. reflexivity.
Qed.

Lemma parse_predictions_200 (response : Response) (st : State) :
  status_code response = 200 ->
  parse_predictions response st =
  match json_ response with
  | Ok v => (Ok v, st)
  | Raise e => if isinstance_JSONDecodeError e then (Ok (JArr []), st) else (Raise e, st)
  end.
Proof.
  intros H. unfold parse_predictions, try_except, lift. rewrite H. cbn.
  destruct (json_ response) as [v|e]; [reflexivity|].
  destruct (isinstance_JSONDecodeError e); reflexivity.
Qed.


(** [forward] when the upstream answers and its body decodes (or need not
    be decoded). *)
Lemma forward_returns (rj ws preds : json) (ip : option string) (start : spec_float)
    (hdrs : gmap string string) (response : Response) (st : State) :
  requests_post w (ORIGINAL_FUNCTION_URL cfg) rj = Ok response ->
  (forall st', parse_predictions response st' = (Ok preds, st')) ->
  let ms := Float64.mul (Float64.sub (time_time w (ticks st)) start) (Float64.of_Z 1000) in
  let row := Build_Row (utcnow_isoformat w) ws preds ip ms (status_code response) in
  forward cfg w rj ws ip start hdrs st =
  (Ok (Bytes (content response), status_code response, json_headers hdrs),
   {| ticks := S (ticks st);
      trace := trace st ++ EvPost (ORIGINAL_FUNCTION_URL cfg) rj
                             (<["Content-Type" := "application/json"]> ∅) 30
                 :: EvInsert (table_ref cfg) [row]
                 :: sink_log (insert_rows_json w (table_ref cfg) [row]);
      reads := reads st ++ [S (length (trace st))] |}).
Proof.
  intros Hup Hparse. unfold forward. cbn zeta.
  rewrite bind_run, post_run, Hup, bind_run, elapsed_ms_run, bind_run, Hparse.
  rewrite bind_run, log_to_bigquery_run, ret_run. cbn [ticks trace reads].
  rewrite <- app_assoc, length_app. cbn [length]. rewrite Nat.add_1_r. reflexivity.
Qed.

(** [forward] when [requests.post] raises. *)
Lemma forward_post_raises (rj ws : json) (ip : option string) (start : spec_float)
    (hdrs : gmap string string) (e : exn) (st : State) :
  requests_post w (ORIGINAL_FUNCTION_URL cfg) rj = Raise e ->
  forward cfg w rj ws ip start hdrs st =
  (Raise e,
   {| ticks := ticks st;
      trace := trace st ++ [EvPost (ORIGINAL_FUNCTION_URL cfg) rj
                              (<["Content-Type" := "application/json"]> ∅) 30];
      reads := reads st |}).
Proof.
  intros Hup. unfold forward. rewrite bind_run, post_run, Hup. reflexivity.
Qed.

(** [forward] when [response.json()] raises something the inner [except]
    does not catch. *)
Lemma forward_json_raises (rj ws : json) (ip : option string) (start : spec_float)
    (hdrs : gmap string string) (response : Response) (e : exn) (st : State) :
  requests_post w (ORIGINAL_FUNCTION_URL cfg) rj = Ok response ->
  status_code response = 200 ->
  json_ response = Raise e ->
  isinstance_JSONDecodeError e = false ->
  forward cfg w rj ws ip start hdrs st =
  (Raise e,
   {| ticks := S (ticks st);
      trace := trace st ++ [EvPost (ORIGINAL_FUNCTION_URL cfg) rj
                              (<["Content-Type" := "application/json"]> ∅) 30];
      reads := reads st ++ [S (length (trace st))] |}).
Proof.
  intros Hup H200 Hj He. unfold forward. cbn zeta.
  rewrite bind_run, post_run, Hup, bind_run, elapsed_ms_run, bind_run.
  rewrite parse_predictions_200 by assumption. rewrite Hj, He. cbn [ticks trace reads].
  rewrite length_app. cbn [length]. rewrite Nat.add_1_r. reflexivity.
Qed.

Lemma on_request_exception_run (e : exn) (m : gmap string json) (ip : option string)
    (start : spec_float) (hdrs : gmap string string) (st : State) :
  let ms := Float64.mul (Float64.sub (time_time w (ticks st)) start) (Float64.of_Z 1000) in
  let row := Build_Row (utcnow_isoformat w) (default (JStr "unknown") (m !! "week_start"))
                       (JArr []) ip ms 500 in
  on_request_exception cfg w e (JObj m) ip start hdrs st =
  (Ok (Str (json_dumps_error "Failed to get predictions"), 500, json_headers hdrs),
   {| ticks := S (ticks st);
      trace := trace st ++ EvPrint (LogUpstreamError e)
                 :: EvInsert (table_ref cfg) [row]
                 :: sink_error_log (insert_rows_json w (table_ref cfg) [row]);
      reads := reads st ++ [length (trace st)] |}).
Proof.
  unfold on_request_exception. cbn zeta.
  rewrite bind_run, elapsed_ms_run, bind_run, print_run, bind_run.
  rewrite log_error_to_bigquery_run, ret_run. cbn [ticks trace reads].
  rewrite <- app_assoc. reflexivity.
Qed.

Lemma on_exception_run (e : exn) (hdrs : gmap string string) (st : State) :
  on_exception e hdrs st =
  (Ok (Str (json_dumps_error "Internal server error"), 500, json_headers hdrs),
   {| ticks := ticks st; trace := trace st ++ [EvPrint (LogUnexpected e)];
      reads := reads st |}).
Proof. reflexivity. Qed.

(** A validated request gets as far as the forwarding block. *)
Lemma handle_validated (request : Request) (m : gmap string json) (ws : json) :
  (method request =? "OPTIONS")%string = false ->
  get_json request = JObj m ->
  m !! "week_start" = Some ws ->
  truthy ws = true ->
  handle cfg w request =
  let ip := get_client_ip request in
  let start := time_time w 0%nat in
  let '(r, st) :=
    try_except (forward cfg w (JObj m) ws ip start cors_headers)
               (except_clauses cfg w (JObj m) ip start cors_headers)
               {| ticks := 1; trace := []; reads := [0%nat] |} in
  (r, trace st).
Proof.
  intros Hm Hj Hk Hw.
  unfold handle, run, predict_with_logging.
  rewrite bind_run, now_run. cbn [initial_state ticks trace reads app length].
  rewrite Hm, Hj, (truthy_dict m _ ws Hk). cbn [negb].
  rewrite !try_except_run, bind_run, py_get_dict, Hk. cbn [default from_option id].
  rewrite Hw. reflexivity.
Qed.

End Runs.

(** ** Agreement of two runs *)

Lemma outbound_app (tr1 tr2 : list event) :
  outbound (tr1 ++ tr2) = outbound tr1 ++ outbound tr2.
Proof.
  induction tr1 as [|ev tr1 IH]; [reflexivity|].
  destruct ev; simpl; rewrite ?IH; reflexivity.
Qed.

Lemma outbound_sink_log (r : result (list json)) : outbound (sink_log r) = [].
Proof. destruct r as [[|err errs]|e]; reflexivity. Qed.

Lemma outbound_sink_error_log (r : result (list json)) : outbound (sink_error_log r) = [].
Proof. destruct r as [errs|e]; reflexivity. Qed.

(** Closes an agreement goal once both runs are written out. *)
Ltac close_alike Ht Ho :=
  split;
  [ cbn [fst]; rewrite ?Ht; reflexivity
  | split; cbn [fst snd ticks trace];
    [ rewrite ?Ht; reflexivity
    | rewrite ?outbound_app; cbn [outbound];
      rewrite ?outbound_sink_log, ?outbound_sink_error_log, ?Ho; reflexivity ] ].

Lemma agree_ret {A : Type} (a : A) : agree (mret a) (mret a).
Proof. intros st1 st2 H. split; [reflexivity|exact H]. Qed.

Lemma agree_bind {A B : Type} (m1 m2 : M A) (f1 f2 : A -> M B) :
  agree m1 m2 -> (forall a, agree (f1 a) (f2 a)) -> agree (m1 ≫= f1) (m2 ≫= f2).
Proof.
  intros Hm Hf st1 st2 Hst. rewrite !bind_run.
  destruct (Hm st1 st2 Hst) as [Hr Hst'].
  destruct (m1 st1) as [r1 st1'], (m2 st2) as [r2 st2']. simpl in Hr, Hst'. subst r2.
  destruct r1 as [a|e]; [apply Hf; exact Hst'|]. split; [reflexivity|exact Hst'].
Qed.

Lemma agree_try_except {A : Type} (b1 b2 : M A) (h1 h2 : exn -> option (M A)) :
  agree b1 b2 -> agree_handlers h1 h2 -> agree (try_except b1 h1) (try_except b2 h2).
Proof.
  intros Hb Hh st1 st2 Hst. rewrite !try_except_run.
  destruct (Hb st1 st2 Hst) as [Hr Hst'].
  destruct (b1 st1) as [r1 st1'], (b2 st2) as [r2 st2']. simpl in Hr, Hst'. subst r2.
  destruct r1 as [a|e]; [split; [reflexivity|exact Hst']|].
  specialize (Hh e). destruct (h1 e) as [k1|], (h2 e) as [k2|]; try contradiction.
  - apply Hh; exact Hst'.
  - split; [reflexivity|exact Hst'].
Qed.

Lemma agree_print (l1 l2 : log_line) : agree (print l1) (print l2).
Proof.
  intros st1 st2 [Ht Ho]. rewrite !print_run. close_alike Ht Ho.
Qed.

Lemma agree_py_get (x : json) (key : string) (dflt : json) :
  agree (py_get x key dflt) (py_get x key dflt).
Proof.
  intros st1 st2 Hst. destruct x; (split; [reflexivity|exact Hst]).
Qed.

Section TwoSinks.

Variable cfg : Config.
Variable w : World.
Variables sink1 sink2 : string -> list Row -> result (list json).

Let w1 : World := with_sink w sink1.
Let w2 : World := with_sink w sink2.

Lemma agree_now : agree (now w1) (now w2).
Proof.
  intros st1 st2 [Ht Ho]. rewrite !now_run. close_alike Ht Ho.
Qed.

Lemma agree_elapsed_ms (start : spec_float) : agree (elapsed_ms w1 start) (elapsed_ms w2 start).
Proof.
  intros st1 st2 [Ht Ho]. rewrite !elapsed_ms_run. close_alike Ht Ho.
Qed.

Lemma agree_post (payload : json) : agree (post cfg w1 payload) (post cfg w2 payload).
Proof.
  intros st1 st2 [Ht Ho]. rewrite !post_run. close_alike Ht Ho.
Qed.

Lemma agree_parse_predictions (response : Response) :
  agree (parse_predictions response) (parse_predictions response).
Proof.
  intros st1 st2 Hst. unfold parse_predictions.
  destruct (status_code response =? 200); [|split; [reflexivity|exact Hst]].
  rewrite !try_except_run. unfold lift.
  destruct (json_ response) as [v|e]; [split; [reflexivity|exact Hst]|].
  destruct (isinstance_JSONDecodeError e); (split; [reflexivity|exact Hst]).
Qed.

(** The two audit writes hand the same row to their sinks and return
    normally, whatever the sinks answer. *)
Lemma agree_log_to_bigquery (ws preds : json) (ip : option string) (ms : spec_float)
    (status : Z) :
  agree (log_to_bigquery cfg w1 ws preds ip ms status)
        (log_to_bigquery cfg w2 ws preds ip ms status).
Proof.
  intros st1 st2 [Ht Ho]. rewrite !log_to_bigquery_run. close_alike Ht Ho.
Qed.

Lemma agree_log_error_to_bigquery (rj : json) (ip : option string) (ms : spec_float) :
  agree (log_error_to_bigquery cfg w1 rj ip ms) (log_error_to_bigquery cfg w2 rj ip ms).
Proof.
  intros st1 st2 [Ht Ho].
  destruct rj as [| | | | | |m];
    try (unfold log_error_to_bigquery; rewrite !try_except_run, !bind_run;
         cbn [py_get raise]; rewrite !print_run; close_alike Ht Ho).
  rewrite !log_error_to_bigquery_run. close_alike Ht Ho.
Qed.

Lemma agree_forward (rj ws : json) (ip : option string) (start : spec_float)
    (hdrs : gmap string string) :
  agree (forward cfg w1 rj ws ip start hdrs) (forward cfg w2 rj ws ip start hdrs).
Proof.
  unfold forward.
  apply agree_bind; [apply agree_post|]. intros response.
  apply agree_bind; [apply agree_elapsed_ms|]. intros ms. cbn zeta.
  apply agree_bind; [apply agree_parse_predictions|]. intros preds.
  apply agree_bind; [apply agree_log_to_bigquery|]. intros _.
  apply agree_ret.
Qed.

Lemma agree_except_clauses (rj : json) (ip : option string) (start : spec_float)
    (hdrs : gmap string string) :
  agree_handlers (except_clauses cfg w1 rj ip start hdrs)
                 (except_clauses cfg w2 rj ip start hdrs).
Proof.
  intros e. unfold except_clauses. destruct (isinstance_RequestException e).
  - unfold on_request_exception.
    apply agree_bind; [apply agree_elapsed_ms|]. intros ms.
    apply agree_bind; [apply agree_print|]. intros _.
    apply agree_bind; [apply agree_log_error_to_bigquery|]. intros _.
    apply agree_ret.
  - unfold on_exception.
    apply agree_bind; [apply agree_print|]. intros _. apply agree_ret.
Qed.

Lemma agree_predict_with_logging (request : Request) :
  agree (predict_with_logging cfg w1 request) (predict_with_logging cfg w2 request).
Proof.
  unfold predict_with_logging.
  apply agree_bind; [apply agree_now|]. intros start. cbn zeta.
  destruct (method request =? "OPTIONS")%string; [apply agree_ret|].
  apply agree_try_except; [|apply agree_except_clauses].
  destruct (negb (truthy (get_json request))); [apply agree_ret|].
  apply agree_bind; [apply agree_py_get|]. intros ws.
  destruct (negb (truthy ws)); [apply agree_ret|].
  apply agree_forward.
Qed.

End TwoSinks.

(** ** The handler as a whole *)

Section Whole.

Variable cfg : Config.
Variable w : World.

Lemma handle_options (request : Request) :
  method request = "OPTIONS" ->
  handle cfg w request = (Ok (Str EmptyString, 204, cors_headers), []).
Proof.
  intros H. unfold handle, run, predict_with_logging.
  rewrite bind_run, now_run, H. reflexivity.
Qed.

Lemma handle_not_json (request : Request) :
  method request <> "OPTIONS" ->
  truthy (get_json request) = false ->
  handle cfg w request = (Ok (error_response "Request must be JSON" 400), []).
Proof.
  intros Hm Ht. apply String.eqb_neq in Hm.
  unfold handle, run, predict_with_logging.
  rewrite bind_run, now_run, Hm. cbn [initial_state ticks trace reads app length]. rewrite Ht. reflexivity.
Qed.

Lemma handle_week_start_absent (request : Request) (m : gmap string json) :
  method request <> "OPTIONS" ->
  get_json request = JObj m ->
  truthy (JObj m) = true ->
  truthy (default JNull (m !! "week_start")) = false ->
  handle cfg w request = (Ok (error_response "week_start is required" 400), []).
Proof.
  intros Hm Hj Ht Hw. apply String.eqb_neq in Hm.
  unfold handle, run, predict_with_logging.
  rewrite bind_run, now_run, Hm. cbn [initial_state ticks trace reads app length]. rewrite Hj, Ht. cbn [negb].
  rewrite try_except_run, bind_run, py_get_dict, Hw. reflexivity.
Qed.

Lemma handle_no_dict (request : Request) :
  method request <> "OPTIONS" ->
  truthy (get_json request) = true ->
  (forall m, get_json request <> JObj m) ->
  exists e,
    handle cfg w request =
    (Ok (error_response "Internal server error" 500), [EvPrint (LogUnexpected e)]).
Proof.
  intros Hm Ht Hj. apply String.eqb_neq in Hm.
  unfold handle, run, predict_with_logging.
  rewrite bind_run, now_run, Hm. cbn [initial_state ticks trace reads app length]. rewrite Ht. cbn [negb].
  rewrite try_except_run, bind_run.
  destruct (py_get_no_dict (get_json request) "week_start" JNull
              {| ticks := 1; trace := []; reads := [0%nat] |} Hj) as [msg ->].
  eexists. reflexivity.
Qed.

(** A request that fails validation touches neither collaborator. *)
Lemma handle_invalid (request : Request) :
  valid_request request = false ->
  upstream_calls (handle cfg w request).2 = [] /\
  audit_attempts (handle cfg w request).2 = [].
Proof.
  intros Hv.
  destruct (String.eqb_spec (method request) "OPTIONS") as [Hm|Hm].
  { rewrite handle_options by assumption. split; reflexivity. }
  destruct (truthy (get_json request)) eqn:Ht.
  2:{ rewrite handle_not_json by assumption. split; reflexivity. }
  destruct (get_json request) as [| | | | | |m] eqn:Hj;
    try (destruct (handle_no_dict request Hm) as [e ->];
         [rewrite Hj; exact Ht | rewrite Hj; discriminate | split; reflexivity]).
  destruct (truthy (default JNull (m !! "week_start"))) eqn:Hw.
  - exfalso. unfold valid_request, week_start_of in Hv. rewrite Hj in Hv.
    apply String.eqb_neq in Hm. rewrite Hm in Hv. cbn [negb andb] in Hv.
    destruct (m !! "week_start") as [ws|]; cbn in Hw; congruence.
  - rewrite (handle_week_start_absent request m) by assumption. split; reflexivity.
Qed.


Lemma week_start_of_valid (request : Request) (m : gmap string json) (ws ws' : json) :
  get_json request = JObj m ->
  m !! "week_start" = Some ws ->
  week_start_of (get_json request) = Some ws' ->
  ws' = ws.
Proof.
  intros Hj Hk H. unfold week_start_of in H. rewrite Hj, Hk in H. congruence.
Qed.

(** The upstream answered and the answer was decoded as far as needed. *)
Lemma handle_upstream_returned (request : Request) (response : Response) (ws preds : json) :
  valid_request request = true ->
  week_start_of (get_json request) = Some ws ->
  upstream cfg w request = Ok response ->
  (forall st, parse_predictions response st = (Ok preds, st)) ->
  let row := audit_row w request ws preds 1 (status_code response) in
  handle cfg w request =
  (Ok (Bytes (content response), status_code response, json_headers cors_headers),
   post_event cfg request :: EvInsert (table_ref cfg) [row]
     :: sink_log (insert_rows_json w (table_ref cfg) [row])).
Proof.
  intros Hv Hws Hup Hparse.
  destruct (valid_request_inv _ Hv) as (m & ws' & Hm & Hj & Hk & Hw & _).
  rewrite (week_start_of_valid _ _ _ _ Hj Hk Hws) in *.
  unfold upstream in Hup. unfold post_event. rewrite Hj in Hup |- *.
  rewrite (handle_validated cfg w request m ws') by assumption. cbn zeta.
  rewrite try_except_run, (forward_returns cfg w _ _ preds _ _ _ response) by assumption.
  reflexivity.
Qed.

(** [requests.post] raised a transport error. *)
Lemma handle_transport_error (request : Request) (e : exn) (ws : json) :
  valid_request request = true ->
  week_start_of (get_json request) = Some ws ->
  upstream cfg w request = Raise e ->
  isinstance_RequestException e = true ->
  let row := audit_row w request ws (JArr []) 1 500 in
  handle cfg w request =
  (Ok (error_response "Failed to get predictions" 500),
   post_event cfg request :: EvPrint (LogUpstreamError e) :: EvInsert (table_ref cfg) [row]
     :: sink_error_log (insert_rows_json w (table_ref cfg) [row])).
Proof.
  intros Hv Hws Hup He.
  destruct (valid_request_inv _ Hv) as (m & ws' & Hm & Hj & Hk & Hw & _).
  rewrite (week_start_of_valid _ _ _ _ Hj Hk Hws) in *.
  unfold upstream in Hup. unfold post_event. rewrite Hj in Hup |- *.
  rewrite (handle_validated cfg w request m ws') by assumption. cbn zeta.
  rewrite try_except_run, (forward_post_raises cfg w _ _ _ _ _ e) by assumption.
  unfold except_clauses. rewrite He, on_request_exception_run, Hk. reflexivity.
Qed.

(** [requests.post] raised something that is no transport error. *)
Lemma handle_post_unexpected (request : Request) (e : exn) :
  valid_request request = true ->
  upstream cfg w request = Raise e ->
  isinstance_RequestException e = false ->
  handle cfg w request =
  (Ok (error_response "Internal server error" 500),
   [post_event cfg request; EvPrint (LogUnexpected e)]).
Proof.
  intros Hv Hup He.
  destruct (valid_request_inv _ Hv) as (m & ws' & Hm & Hj & Hk & Hw & _).
  unfold upstream in Hup. unfold post_event. rewrite Hj in Hup |- *.
  rewrite (handle_validated cfg w request m ws') by assumption. cbn zeta.
  rewrite try_except_run, (forward_post_raises cfg w _ _ _ _ _ e) by assumption.
  unfold except_clauses. rewrite He, on_exception_run. reflexivity.
Qed.

(** [response.json()] raised a [RequestException] that is no JSON decoding
    error: the transport-error clause runs, after a third clock reading. *)
Lemma handle_json_request_exception (request : Request) (response : Response) (e : exn)
    (ws : json) :
  valid_request request = true ->
  week_start_of (get_json request) = Some ws ->
  upstream cfg w request = Ok response ->
  status_code response = 200 ->
  json_ response = Raise e ->
  isinstance_JSONDecodeError e = false ->
  isinstance_RequestException e = true ->
  let row := audit_row w request ws (JArr []) 2 500 in
  handle cfg w request =
  (Ok (error_response "Failed to get predictions" 500),
   post_event cfg request :: EvPrint (LogUpstreamError e) :: EvInsert (table_ref cfg) [row]
     :: sink_error_log (insert_rows_json w (table_ref cfg) [row])).
Proof.
  intros Hv Hws Hup H200 Hjs Hd He.
  destruct (valid_request_inv _ Hv) as (m & ws' & Hm & Hj & Hk & Hw & _).
  rewrite (week_start_of_valid _ _ _ _ Hj Hk Hws) in *.
  unfold upstream in Hup. unfold post_event. rewrite Hj in Hup |- *.
  rewrite (handle_validated cfg w request m ws') by assumption. cbn zeta.
  rewrite try_except_run, (forward_json_raises cfg w _ _ _ _ _ response e) by assumption.
  unfold except_clauses. rewrite He, on_request_exception_run, Hk. reflexivity.
Qed.

(** [response.json()] raised something else. *)
Lemma handle_json_unexpected (request : Request) (response : Response) (e : exn) :
  valid_request request = true ->
  upstream cfg w request = Ok response ->
  status_code response = 200 ->
  json_ response = Raise e ->
  isinstance_JSONDecodeError e = false ->
  isinstance_RequestException e = false ->
  handle cfg w request =
  (Ok (error_response "Internal server error" 500),
   [post_event cfg request; EvPrint (LogUnexpected e)]).
Proof.
  intros Hv Hup H200 Hjs Hd He.
  destruct (valid_request_inv _ Hv) as (m & ws' & Hm & Hj & Hk & Hw & _).
  unfold upstream in Hup. unfold post_event. rewrite Hj in Hup |- *.
  rewrite (handle_validated cfg w request m ws') by assumption. cbn zeta.
  rewrite try_except_run, (forward_json_raises cfg w _ _ _ _ _ response e) by assumption.
  unfold except_clauses. rewrite He, on_exception_run. reflexivity.
Qed.

End Whole.

(** ** The handler always returns *)

Lemma log_error_to_bigquery_returns (cfg : Config) (w : World) (rj : json)
    (ip : option string) (ms : spec_float) (st : State) :
  exists st', log_error_to_bigquery cfg w rj ip ms st = (Ok (), st').
Proof.
  destruct rj as [| | | | | |m];
    try (unfold log_error_to_bigquery; rewrite try_except_run, bind_run;
         cbn [py_get raise]; rewrite print_run; eexists; reflexivity).
  rewrite log_error_to_bigquery_run. eexists; reflexivity.
Qed.

Lemma except_clauses_return (cfg : Config) (w : World) (rj : json) (ip : option string)
    (start : spec_float) (hdrs : gmap string string) (e : exn) (st : State) :
  exists h resp st',
    except_clauses cfg w rj ip start hdrs e = Some h /\ h st = (Ok resp, st').
Proof.
  unfold except_clauses. destruct (isinstance_RequestException e).
  - destruct (log_error_to_bigquery_returns cfg w rj ip
                (Float64.mul (Float64.sub (time_time w (ticks st)) start) (Float64.of_Z 1000))
                {| ticks := S (ticks st);
                   trace := trace st ++ [EvPrint (LogUpstreamError e)];
                   reads := reads st ++ [length (trace st)] |}) as [st' Hst'].
    eexists _, _, st'. split; [reflexivity|].
    unfold on_request_exception.
    rewrite bind_run, elapsed_ms_run, bind_run, print_run, bind_run.
    cbn [ticks trace reads]. rewrite Hst'. reflexivity.
  - eexists _, _, _. split; reflexivity.
Qed.

Theorem handle_returns (cfg : Config) (w : World) (request : Request) :
  exists resp, (handle cfg w request).1 = Ok resp.
Proof.
  unfold handle, run, predict_with_logging.
  rewrite bind_run, now_run. cbn [initial_state ticks trace reads app length].
  destruct (method request =? "OPTIONS")%string; [eexists; reflexivity|].
  rewrite try_except_run.
  match goal with |- context [match ?b ?s with _ => _ end] => destruct (b s) as [[resp|e] st'] end.
  - eexists; reflexivity.
  - destruct (except_clauses_return cfg w (get_json request) (get_client_ip request)
                (time_time w 0%nat) cors_headers e st') as (h & resp & st'' & -> & ->).
    eexists; reflexivity.
Qed.

(** ** Signs in binary64 arithmetic *)

Section Rounding.

Variables prec emax : Z.

Lemma shr_1_nonneg mrs : 0 <= shr_m mrs -> 0 <= shr_m (shr_1 mrs).
Proof.
  destruct mrs as [m r s]. simpl. intros H.
  destruct m as [|p|p]; [simpl; lia| |lia].
  destruct p; simpl; lia.
Qed.

Lemma iter_pos_shr_1_nonneg p : forall mrs, 0 <= shr_m mrs -> 0 <= shr_m (SpecFloat.iter_pos shr_1 p mrs).
Proof.
  induction p as [p IH|p IH|]; intros mrs H; simpl.
  - apply IH, IH, shr_1_nonneg, H.
  - apply IH, IH, H.
  - apply shr_1_nonneg, H.
Qed.

Lemma shr_nonneg mrs e n : 0 <= shr_m mrs -> 0 <= shr_m (fst (shr mrs e n)).
Proof.
  intros H. unfold shr. destruct n; simpl; try assumption.
  apply iter_pos_shr_1_nonneg, H.
Qed.

Lemma shr_record_of_loc_m m l : shr_m (shr_record_of_loc m l) = m.
Proof. destruct l as [|[]]; reflexivity. Qed.

Lemma shr_fexp_nonneg m e l : 0 <= m -> 0 <= shr_m (fst (shr_fexp prec emax m e l)).
Proof.
  intros H. unfold shr_fexp. apply shr_nonneg. rewrite shr_record_of_loc_m. exact H.
Qed.

Lemma round_nearest_even_nonneg m l : 0 <= m -> 0 <= round_nearest_even m l.
Proof.
  intros H. unfold round_nearest_even. destruct l as [|[]]; try lia.
  destruct (Z.even m); lia.
Qed.

Lemma binary_round_aux_sign s m e l :
  0 <= m ->
  match binary_round_aux prec emax s m e l with
  | S754_zero s' | S754_infinity s' | S754_finite s' _ _ => s' = s
  | S754_nan => False
  end.
Proof.
  intros H. unfold binary_round_aux.
  pose proof (shr_fexp_nonneg m e l H) as H1.
  destruct (shr_fexp prec emax m e l) as [mrs' e']. simpl in H1.
  pose proof (shr_fexp_nonneg _ e' loc_Exact
                (round_nearest_even_nonneg _ (loc_of_shr_record mrs') H1)) as H2.
  destruct (shr_fexp prec emax (round_nearest_even (shr_m mrs') (loc_of_shr_record mrs')) e' loc_Exact)
    as [mrs'' e'']. simpl in H2.
  destruct (shr_m mrs'') as [|p|p]; [reflexivity| |lia].
  destruct (e'' <=? emax - prec); reflexivity.
Qed.
End Rounding.





Section Subtraction.

Variables prec emax : Z.





End Subtraction.


Lemma of_Z_1000 : Float64.of_Z 1000 = S754_finite false 8796093022208000 (-43).
Proof. reflexivity. Qed.


(** ** Every way through the handler *)

Lemma valid_request_intro (request : Request) (m : gmap string json) (ws : json) :
  method request <> "OPTIONS" ->
  get_json request = JObj m ->
  m !! "week_start" = Some ws ->
  truthy ws = true ->
  valid_request request = true.
Proof.
  intros Hm Hj Hk Hw. unfold valid_request, week_start_of.
  apply String.eqb_neq in Hm. rewrite Hm, Hj, Hk. exact Hw.
Qed.

Lemma decoded_parse (response : Response) (predictions : json) (st : State) :
  decoded response predictions ->
  parse_predictions response st = (Ok predictions, st).
Proof.
  intros [H | v H Hj | e H Hj He].
  - apply parse_predictions_not_200; assumption.
  - apply parse_predictions_decoded; assumption.
  - rewrite parse_predictions_200, Hj, He by assumption. reflexivity.
Qed.

(** Two states are the same up to the association of the lists they hold. *)
Ltac same_state :=
  cbn [ticks trace reads]; rewrite <- ?app_assoc, ?length_app; cbn [length];
  rewrite ?Nat.add_1_r; reflexivity.

(** From any state of the process, the handler returns a response, and what
    it did is one of the nine ways of [outcome]. *)
Lemma predict_outcome (cfg : Config) (w : World) (request : Request) (st : State) :
  exists resp n evs,
    predict_with_logging cfg w request st =
      (Ok resp, {| ticks := n + ticks st; trace := trace st ++ evs;
                   reads := reads st ++ readings (length (trace st)) n |}) /\
    outcome cfg w request (ticks st) resp n evs.
Proof.
  unfold predict_with_logging. rewrite bind_run, now_run. cbn [ticks trace reads].
  destruct (String.eqb_spec (method request) "OPTIONS") as [Hm|Hm].
  { exists (Str EmptyString, 204, cors_headers), 1%nat, [].
    rewrite app_nil_r. split; [reflexivity|]. constructor; assumption. }
  destruct (truthy (get_json request)) eqn:Ht; cbn [negb].
  2:{ exists (error_response "Request must be JSON" 400), 1%nat, [].
      rewrite try_except_run, ret_run, app_nil_r. split; [reflexivity|].
      constructor; assumption. }
  destruct (get_json request) as [| | | | | |m] eqn:Hj;
    try (eexists _, 1%nat, [EvPrint (LogUnexpected (AttributeError _))];
         split; [reflexivity|]; apply NoDict; rewrite ?Hj;
         first [assumption | discriminate]).
  rewrite try_except_run, bind_run, py_get_dict.
  destruct (truthy (default JNull (m !! "week_start"))) eqn:Hw; cbn [negb].
  2:{ exists (error_response "week_start is required" 400), 1%nat, [].
      rewrite ret_run, app_nil_r. split; [reflexivity|].
      apply (NoWeekStart cfg w request _ m); assumption. }
  destruct (m !! "week_start") as [ws|] eqn:Hk; [|discriminate]. cbn [default from_option id] in *.
  assert (Hv : valid_request request = true) by eauto using valid_request_intro.
  assert (Hws : week_start_of (get_json request) = Some ws)
    by (unfold week_start_of; rewrite Hj; exact Hk).
  destruct (upstream cfg w request) as [response|e] eqn:Hup.
  - assert (Hup' := Hup). unfold upstream in Hup'. rewrite Hj in Hup'.
    destruct (Z.eqb_spec (status_code response) 200) as [H200|H200].
    + destruct (json_ response) as [v|e] eqn:Hjs.
      * assert (Hd : decoded response v) by (apply DecodedValue; assumption).
        rewrite (forward_returns cfg w _ _ v _ _ _ response)
          by (try assumption; intros; apply decoded_parse; assumption).
        eexists _, 2%nat, _. split; [same_state|].
        unfold post_event. rewrite <- Hj.
        exact (Forwarded cfg w request _ ws response v Hv Hws Hup Hd).
      * destruct (isinstance_JSONDecodeError e) eqn:He.
        -- assert (Hd : decoded response (JArr []))
             by (apply (DecodedInvalid response e); assumption).
           rewrite (forward_returns cfg w _ _ (JArr []) _ _ _ response)
             by (try assumption; intros; apply decoded_parse; assumption).
           eexists _, 2%nat, _. split; [same_state|].
           unfold post_event. rewrite <- Hj.
           exact (Forwarded cfg w request _ ws response (JArr []) Hv Hws Hup Hd).
        -- rewrite (forward_json_raises cfg w _ _ _ _ _ response e) by assumption.
           unfold except_clauses.
           destruct (isinstance_RequestException e) eqn:Hr.
           ++ rewrite on_request_exception_run, Hk. cbn [ticks trace reads default from_option id].
              eexists _, 3%nat, _. split; [same_state|].
              unfold post_event. rewrite <- Hj.
              exact (DecodeTransportError cfg w request _ ws response e
                       Hv Hws Hup H200 Hjs He Hr).
           ++ rewrite on_exception_run. cbn [ticks trace reads].
              eexists _, 2%nat, _. split; [same_state|].
              unfold post_event. rewrite <- Hj.
              exact (DecodeUnexpected cfg w request _ response e Hv Hup H200 Hjs He Hr).
    + assert (Hd : decoded response (JArr [])) by (apply DecodedSkipped; assumption).
      rewrite (forward_returns cfg w _ _ (JArr []) _ _ _ response)
        by (try assumption; intros; apply decoded_parse; assumption).
      eexists _, 2%nat, _. split; [same_state|].
      unfold post_event. rewrite <- Hj.
      exact (Forwarded cfg w request _ ws response (JArr []) Hv Hws Hup Hd).
  - assert (Hup' := Hup). unfold upstream in Hup'. rewrite Hj in Hup'.
    rewrite (forward_post_raises cfg w _ _ _ _ _ e) by assumption.
    unfold except_clauses.
    destruct (isinstance_RequestException e) eqn:Hr.
    + rewrite on_request_exception_run, Hk. cbn [ticks trace reads default from_option id].
      eexists _, 2%nat, _. split; [same_state|].
      unfold post_event. rewrite <- Hj.
      exact (TransportError cfg w request _ ws e Hv Hws Hup Hr).
    + rewrite on_exception_run. cbn [ticks trace reads].
      eexists _, 1%nat, _. split; [same_state|].
      unfold post_event. rewrite <- Hj.
      exact (UpstreamUnexpected cfg w request _ e Hv Hup Hr).
Qed.

(** One invocation in a fresh process. *)
Lemma handle_outcome (cfg : Config) (w : World) (request : Request) :
  exists resp n evs,
    handle cfg w request = (Ok resp, evs) /\ outcome cfg w request 0 resp n evs.
Proof.
  destruct (predict_outcome cfg w request initial_state) as (resp & n & evs & Hrun & Hout).
  exists resp, n, evs. split; [|exact Hout].
  unfold handle, run. rewrite Hrun. reflexivity.
Qed.

(** The requests that fail validation. *)
Lemma valid_request_false (request : Request) :
  method request = "OPTIONS" \/
  truthy (get_json request) = false \/
  (forall m, get_json request <> JObj m) \/
  (exists m, get_json request = JObj m /\ truthy (default JNull (m !! "week_start")) = false) ->
  valid_request request = false.
Proof.
  unfold valid_request, week_start_of. intros [H|[H|[H|(m & Hj & H)]]].
  - rewrite H. reflexivity.
  - apply andb_false_intro2. destruct (get_json request) as [| | | | | |m]; try reflexivity.
    destruct (m !! "week_start") as [ws|] eqn:Hk; [|reflexivity].
    rewrite (truthy_dict m _ ws Hk) in H. discriminate.
  - apply andb_false_intro2. destruct (get_json request) as [| | | | | |m]; try reflexivity.
    destruct (H m eq_refl).
  - apply andb_false_intro2. rewrite Hj.
    destruct (m !! "week_start") as [ws|]; [exact H|reflexivity].
Qed.

(** ** The claims *)

(** C1. The response of the handler does not depend on what the audit sink
    does: with any two behaviours of [insert_rows_json] (empty error list,
    row errors, an exception, in any mix and on any rows) the handler
    returns the same [(body, status_code, headers)], and makes the same
    calls to the upstream and to the sink. This holds for every request,
    so in particular for those that reach the audit write. *)
Theorem audit_sink_noninterference (cfg : Config) (w : World)
    (sink1 sink2 : string -> list Row -> result (list json)) (request : Request) :
  exists resp,
    (handle cfg (with_sink w sink1) request).1 = Ok resp /\
    (handle cfg (with_sink w sink2) request).1 = Ok resp /\
    outbound (handle cfg (with_sink w sink1) request).2 =
    outbound (handle cfg (with_sink w sink2) request).2.
Proof.
  destruct (handle_returns cfg (with_sink w sink1) request) as [resp Hresp].
  exists resp.
  assert (Hinit : alike initial_state initial_state) by (split; reflexivity).
  destruct (agree_predict_with_logging cfg w sink1 sink2 request _ _ Hinit) as [Hr [_ Ho]].
  unfold handle, run in *.
  destruct (predict_with_logging cfg (with_sink w sink1) request initial_state) as [r1 st1].
  destruct (predict_with_logging cfg (with_sink w sink2) request initial_state) as [r2 st2].
  cbn [fst snd] in *. subst r2. auto.
Qed.

(** C2. A valid request whose upstream call returns status 200 with a body
    that decodes to a JSON array of length [n] is answered with the
    upstream's raw body and status 200, and the one row submitted to the
    sink has [predictions] of length [n] and [status_code = 200]. *)
Theorem upstream_200_array_passthrough (cfg : Config) (w : World) (request : Request)
    (response : Response) (l : list json) (n : nat) :
  valid_request request = true ->
  upstream cfg w request = Ok response ->
  status_code response = 200 ->
  json_ response = Ok (JArr l) ->
  length l = n ->
  exists row,
    (handle cfg w request).1 =
      Ok (Bytes (content response), 200, json_headers cors_headers) /\
    audit_attempts (handle cfg w request).2 = [[row]] /\
    row_predictions row = JArr l /\
    predictions_length (row_predictions row) = Some n /\
    row_status_code row = 200.
Proof.
  intros Hv Hup H200 Hjs Hn.
  destruct (valid_request_inv _ Hv) as (m & ws & _ & Hj & Hk & _).
  assert (Hws : week_start_of (get_json request) = Some ws)
    by (unfold week_start_of; rewrite Hj; exact Hk).
  rewrite (handle_upstream_returned cfg w request response ws (JArr l) Hv Hws Hup)
    by (intros st; apply parse_predictions_decoded; assumption).
  exists (audit_row w request ws (JArr l) 1 (status_code response)).
  cbn [fst snd audit_attempts post_event]. autorewrite with trace.
  rewrite H200. cbn. subst n. auto.
Qed.

Lemma upstream_200_array_passthrough_witness :
  valid_request (post_request week_2024) = true /\
  exists row,
    (handle cfg0 world_player (post_request week_2024)).1 =
      Ok (Bytes "[{...}]", 200, json_headers cors_headers) /\
    audit_attempts (handle cfg0 world_player (post_request week_2024)).2 = [[row]] /\
    row_predictions row = JArr [player_a] /\
    predictions_length (row_predictions row) = Some 1%nat /\
    row_status_code row = 200.
Proof.
  split; [vm_compute; reflexivity|].
  apply (upstream_200_array_passthrough cfg0 world_player (post_request week_2024)
           (response_of 200 "[{...}]" (Ok (JArr [player_a]))) [player_a] 1%nat);
    vm_compute; reflexivity.
Defined.

(** C3. A valid request whose upstream call raises a transport error is
    answered with status 500 and the body [{"error": "Failed to get
    predictions"}]; one audit row is attempted, with [status_code = 500],
    empty [predictions], and as [week_start] the parsed body's entry, the
    sentinel ["unknown"] standing in where the body has none. The body is
    written out character by character: [String "034" s] is [s] after a
    double quote, the character 34. *)
Theorem transport_error_audited (cfg : Config) (w : World) (request : Request) (e : exn) :
  valid_request request = true ->
  upstream cfg w request = Raise e ->
  isinstance_RequestException e = true ->
  exists row,
    (handle cfg w request).1 =
      Ok (Str ("{" +:+ String "034" "error" +:+ String "034" ": "
               +:+ String "034" "Failed to get predictions" +:+ String "034" "}"),
          500, json_headers cors_headers) /\
    audit_attempts (handle cfg w request).2 = [[row]] /\
    row_status_code row = 500 /\
    row_predictions row = JArr [] /\
    row_week_start row = default (JStr "unknown") (week_start_of (get_json request)).
Proof.
  intros Hv Hup He.
  destruct (valid_request_inv _ Hv) as (m & ws & _ & Hj & Hk & _).
  assert (Hws : week_start_of (get_json request) = Some ws)
    by (unfold week_start_of; rewrite Hj; exact Hk).
  rewrite (handle_transport_error cfg w request e ws Hv Hws Hup He), Hws.
  exists (audit_row w request ws (JArr []) 1 500).
  cbn [fst snd audit_attempts post_event]. autorewrite with trace.
  repeat split; reflexivity.
Qed.

Lemma transport_error_audited_witness :
  valid_request (post_request week_2024) = true /\
  exists row,
    (handle cfg0 world_timeout (post_request week_2024)).1 =
      Ok (Str ("{" +:+ String "034" "error" +:+ String "034" ": "
               +:+ String "034" "Failed to get predictions" +:+ String "034" "}"),
          500, json_headers cors_headers) /\
    audit_attempts (handle cfg0 world_timeout (post_request week_2024)).2 = [[row]] /\
    row_status_code row = 500 /\
    row_predictions row = JArr [] /\
    row_week_start row = JStr "2024-01-01".
Proof.
  split; [vm_compute; reflexivity|].
  apply (transport_error_audited cfg0 world_timeout (post_request week_2024)
           (RequestException "Read timed out. (read timeout=30)"));
    vm_compute; reflexivity.
Defined.

(** C4. A request other than OPTIONS whose body is absent or does not parse
    as JSON ([get_json(silent=True)] is [None]) is answered with status 400
    and [{"error": "Request must be JSON"}]; no upstream call is made and no
    audit row attempted. In the body, written out character by character,
    [String "034" s] is [s] after a double quote, the character 34. *)
Theorem request_must_be_json (cfg : Config) (w : World) (request : Request) :
  method request <> "OPTIONS" ->
  get_json request = JNull ->
  quiet_answer (handle cfg w request)
    (Str ("{" +:+ String "034" "error" +:+ String "034" ": "
          +:+ String "034" "Request must be JSON" +:+ String "034" "}"),
     400, json_headers cors_headers).
Proof.
  intros Hm Hj. rewrite handle_not_json by (try rewrite Hj; done).
  repeat split; reflexivity.
Qed.

Lemma request_must_be_json_witness :
  method (post_request JNull) <> "OPTIONS" /\
  quiet_answer (handle cfg0 world_player (post_request JNull))
    (Str ("{" +:+ String "034" "error" +:+ String "034" ": "
          +:+ String "034" "Request must be JSON" +:+ String "034" "}"),
     400, json_headers cors_headers).
Proof.
  split; [discriminate|].
  apply (request_must_be_json cfg0 world_player (post_request JNull));
    [discriminate | reflexivity].
Defined.

(** C5, as far as the code goes. A request other than OPTIONS whose body is
    a non-empty JSON object in which [week_start] is missing or empty
    (null, the empty string, or any other false value) is answered with
    status 400 and [{"error": "week_start is required"}]; no upstream call
    is made and no audit row attempted. In the body, written out character
    by character, [String "034" s] is [s] after a double quote, the
    character 34. *)
Theorem week_start_required (cfg : Config) (w : World) (request : Request)
    (m : gmap string json) :
  method request <> "OPTIONS" ->
  get_json request = JObj m ->
  m <> ∅ ->
  week_start_absent (get_json request) = true ->
  quiet_answer (handle cfg w request)
    (Str ("{" +:+ String "034" "error" +:+ String "034" ": "
          +:+ String "034" "week_start is required" +:+ String "034" "}"),
     400, json_headers cors_headers).
Proof.
  intros Hm Hj Hne Hw.
  rewrite (handle_week_start_absent cfg w request m); try assumption.
  - repeat split; reflexivity.
  - simpl. destruct (size m) eqn:Hs; [|reflexivity].
    apply map_size_empty_inv in Hs. contradiction.
  - unfold week_start_absent, week_start_of in Hw. rewrite Hj in Hw.
    destruct (m !! "week_start") as [ws|]; [|reflexivity].
    apply negb_true_iff in Hw. exact Hw.
Qed.

Lemma week_start_required_witness :
  let request := post_request (JObj (<["week_start" := JStr EmptyString]> ∅)) in
  method request <> "OPTIONS" /\
  week_start_absent (get_json request) = true /\
  quiet_answer (handle cfg0 world_player request)
    (Str ("{" +:+ String "034" "error" +:+ String "034" ": "
          +:+ String "034" "week_start is required" +:+ String "034" "}"),
     400, json_headers cors_headers).
Proof.
  split; [discriminate|]. split; [vm_compute; reflexivity|].
  apply (week_start_required cfg0 world_player
           (post_request (JObj (<["week_start" := JStr EmptyString]> ∅)))
           (<["week_start" := JStr EmptyString]> ∅));
    [discriminate | reflexivity | | vm_compute; reflexivity].
  intros H. apply (f_equal (fun m : gmap string json => m !! "week_start")) in H.
  vm_compute in H. discriminate.
Defined.

(** C5, as stated, fails on the empty object [{}]: it is valid JSON in which
    [week_start] is missing, and the answer is "Request must be JSON". *)
Lemma empty_object_is_not_json :
  ~ stated_week_start_rule cfg0 world_player (post_request (JObj ∅)).
Proof.
  intros H. destruct (H eq_refl ltac:(discriminate) eq_refl) as [Hresp _].
  rewrite handle_not_json in Hresp by (try reflexivity; discriminate).
  cbn [fst] in Hresp. vm_compute in Hresp. discriminate.
Qed.

(** C6. A request with method OPTIONS is answered with an empty body,
    status 204 and the three CORS headers and nothing else; the handler
    makes no upstream call, attempts no audit row, and prints nothing. *)
Theorem preflight_short_circuit (cfg : Config) (w : World) (request : Request) :
  method request = "OPTIONS" ->
  handle cfg w request = (Ok (Str EmptyString, 204, cors_headers), []) /\
  quiet_answer (handle cfg w request) (Str EmptyString, 204, cors_headers) /\
  map_to_list cors_headers =
    [("Access-Control-Allow-Origin", "*");
     ("Access-Control-Allow-Methods", "POST, OPTIONS");
     ("Access-Control-Allow-Headers", "Content-Type")].
Proof.
  intros Hm. rewrite handle_options by assumption.
  repeat split; reflexivity.
Qed.

Lemma preflight_short_circuit_witness :
  method options_request = "OPTIONS" /\
  handle cfg0 world_player options_request = (Ok (Str EmptyString, 204, cors_headers), []).
Proof.
  split; [reflexivity|].
  apply (preflight_short_circuit cfg0 world_player options_request). reflexivity.
Defined.

(** C7, as far as the code goes. The number of audit row insertions the
    handler attempts is one or zero, and it is one exactly for the requests
    of [reaches_audit_write]: the request passes validation, and the
    upstream call returns a response with a status other than 200, or
    returns a 200 response whose body decodes or fails to decode with a
    [json.JSONDecodeError] or a [RequestException], or raises a
    [RequestException]. It is zero for OPTIONS, for the requests answered
    400, for a JSON body that is no object, and when [requests.post] or
    [response.json()] raises any other exception. *)
Theorem audit_attempts_count (cfg : Config) (w : World) (request : Request) :
  length (audit_attempts (handle cfg w request).2) =
  if reaches_audit_write cfg w request then 1%nat else 0%nat.
Proof.
  unfold reaches_audit_write.
  destruct (valid_request request) eqn:Hv; cbn [andb].
  2:{ destruct (handle_invalid cfg w request Hv) as [_ ->]. reflexivity. }
  destruct (valid_request_inv _ Hv) as (m & ws & _ & Hj & Hk & _).
  assert (Hws : week_start_of (get_json request) = Some ws)
    by (unfold week_start_of; rewrite Hj; exact Hk).
  destruct (upstream cfg w request) as [response|e] eqn:Hup.
  - destruct (Z.eqb_spec (status_code response) 200) as [H200|H200].
    + destruct (json_ response) as [v|e] eqn:Hjs.
      * rewrite (handle_upstream_returned cfg w request response ws v Hv Hws Hup)
          by (intros st; apply parse_predictions_decoded; assumption).
        cbn [snd audit_attempts post_event]. autorewrite with trace. reflexivity.
      * destruct (isinstance_JSONDecodeError e) eqn:Hd; cbn [orb].
        -- rewrite (handle_upstream_returned cfg w request response ws (JArr []) Hv Hws Hup)
             by (intros st; rewrite parse_predictions_200, Hjs, Hd by assumption; reflexivity).
           cbn [snd audit_attempts post_event]. autorewrite with trace. reflexivity.
        -- destruct (isinstance_RequestException e) eqn:He.
           ++ rewrite (handle_json_request_exception cfg w request response e ws) by assumption.
              cbn [snd audit_attempts post_event]. autorewrite with trace. reflexivity.
           ++ rewrite (handle_json_unexpected cfg w request response e) by assumption.
              reflexivity.
    + rewrite (handle_upstream_returned cfg w request response ws (JArr []) Hv Hws Hup)
        by (intros st; apply parse_predictions_not_200; assumption).
      cbn [snd audit_attempts post_event]. autorewrite with trace. reflexivity.
  - destruct (isinstance_RequestException e) eqn:He.
    + rewrite (handle_transport_error cfg w request e ws) by assumption.
      cbn [snd audit_attempts post_event]. autorewrite with trace. reflexivity.
    + rewrite (handle_post_unexpected cfg w request e) by assumption. reflexivity.
Qed.

(** C7, as stated, fails on a POST without a JSON body: the request reaches
    request parsing, is answered 400, and no audit row is attempted. *)
Lemma bad_json_no_audit_row :
  ~ stated_one_row_per_request cfg0 world_player (post_request JNull).
Proof.
  intros [H _]. specialize (H ltac:(discriminate)).
  rewrite handle_not_json in H by (try reflexivity; discriminate).
  discriminate.
Qed.

(** C8. A valid request whose upstream call returns a status other than 200
    is answered with the upstream's raw body and status code unchanged,
    and the one row submitted to the sink has empty [predictions]. *)
Theorem upstream_non_200_passthrough (cfg : Config) (w : World) (request : Request)
    (response : Response) :
  valid_request request = true ->
  upstream cfg w request = Ok response ->
  status_code response <> 200 ->
  exists row,
    (handle cfg w request).1 =
      Ok (Bytes (content response), status_code response, json_headers cors_headers) /\
    audit_attempts (handle cfg w request).2 = [[row]] /\
    row_predictions row = JArr [] /\
    row_status_code row = status_code response.
Proof.
  intros Hv Hup H200.
  destruct (valid_request_inv _ Hv) as (m & ws & _ & Hj & Hk & _).
  assert (Hws : week_start_of (get_json request) = Some ws)
    by (unfold week_start_of; rewrite Hj; exact Hk).
  rewrite (handle_upstream_returned cfg w request response ws (JArr []) Hv Hws Hup)
    by (intros st; apply parse_predictions_not_200; assumption).
  exists (audit_row w request ws (JArr []) 1 (status_code response)).
  cbn [fst snd audit_attempts post_event]. autorewrite with trace.
  repeat split; reflexivity.
Qed.

Lemma upstream_non_200_passthrough_witness :
  valid_request (post_request week_2024) = true /\
  exists row,
    (handle cfg0 world_unavailable (post_request week_2024)).1 =
      Ok (Bytes "Service Unavailable", 503, json_headers cors_headers) /\
    audit_attempts (handle cfg0 world_unavailable (post_request week_2024)).2 = [[row]] /\
    row_predictions row = JArr [] /\
    row_status_code row = 503.
Proof.
  split; [vm_compute; reflexivity|].
  apply (upstream_non_200_passthrough cfg0 world_unavailable (post_request week_2024)
           (response_of 503 "Service Unavailable"
              (Raise (RequestsJSONDecodeError "Expecting value"))));
    [vm_compute; reflexivity | vm_compute; reflexivity | discriminate].
Defined.

(** C10. A valid request whose upstream call returns status 200 with a body
    that decodes to a JSON value that is not an array: the row submitted to
    the sink carries that value as [predictions], unchanged and unchecked,
    and the upstream's body and status still pass through. *)
Theorem predictions_not_shape_checked (cfg : Config) (w : World) (request : Request)
    (response : Response) (v : json) :
  valid_request request = true ->
  upstream cfg w request = Ok response ->
  status_code response = 200 ->
  json_ response = Ok v ->
  is_array v = false ->
  exists row,
    (handle cfg w request).1 =
      Ok (Bytes (content response), 200, json_headers cors_headers) /\
    audit_attempts (handle cfg w request).2 = [[row]] /\
    row_predictions row = v.
Proof.
  intros Hv Hup H200 Hjs _.
  destruct (valid_request_inv _ Hv) as (m & ws & _ & Hj & Hk & _).
  assert (Hws : week_start_of (get_json request) = Some ws)
    by (unfold week_start_of; rewrite Hj; exact Hk).
  rewrite (handle_upstream_returned cfg w request response ws v Hv Hws Hup)
    by (intros st; apply parse_predictions_decoded; assumption).
  exists (audit_row w request ws v 1 (status_code response)).
  cbn [fst snd audit_attempts post_event]. autorewrite with trace.
  rewrite H200. repeat split; reflexivity.
Qed.

Lemma predictions_not_shape_checked_witness :
  valid_request (post_request week_2024) = true /\
  is_array player_a = false /\
  exists row,
    (handle cfg0 world_object (post_request week_2024)).1 =
      Ok (Bytes "{...}", 200, json_headers cors_headers) /\
    audit_attempts (handle cfg0 world_object (post_request week_2024)).2 = [[row]] /\
    row_predictions row = player_a.
Proof.
  split; [vm_compute; reflexivity|]. split; [reflexivity|].
  apply (predictions_not_shape_checked cfg0 world_object (post_request week_2024)
           (response_of 200 "{...}" (Ok player_a)) player_a);
    vm_compute; reflexivity.
Defined.





Example clock_set_back_elapsed :
  response_time world_clock_back 1 = S754_finite true 8796093022208000 (-43).
Proof. reflexivity. Qed.

(** ** Worked examples *)

(** The scenario of the specification: POST [{"week_start": "2024-01-01"}],
    the upstream answers 200 with one prediction record. *)
Example scenario_player_a :
  let out := handle cfg0 world_player (post_request week_2024) in
  out.1 = Ok (Bytes "[{...}]", 200, json_headers cors_headers) /\
  audit_attempts out.2 =
    [[ {| row_timestamp := "2024-01-01T12:00:00.000000";
          row_week_start := JStr "2024-01-01";
          row_predictions := JArr [player_a];
          row_client_ip := Some "203.0.113.7";
          row_response_time_ms := float_lit 250 0;
          row_status_code := 200 |} ]] /\
  upstream_calls out.2 = [week_2024] /\
  Float64.ltb Float64.zero (float_lit 250 0) = true.
Proof. vm_compute. repeat split; reflexivity. Qed.

(** The sink rejecting the row, or raising, changes the log and nothing
    else. *)
Example scenario_sink_failures :
  let ok := handle cfg0 (with_sink world_player sink_accepts) (post_request week_2024) in
  let rejected := handle cfg0 (with_sink world_player sink_rejects) (post_request week_2024) in
  let raised := handle cfg0 (with_sink world_player sink_raises) (post_request week_2024) in
  ok.1 = rejected.1 /\ ok.1 = raised.1 /\
  length ok.2 = 2%nat /\ length rejected.2 = 3%nat /\ length raised.2 = 3%nat.
Proof. vm_compute. repeat split; reflexivity. Qed.

(** A JSON array as request body has no [get]: the generic clause answers. *)
Example scenario_array_body :
  (handle cfg0 world_player (post_request (JArr [JInt 1]))).1 =
  Ok (error_response "Internal server error" 500).
Proof. vm_compute. reflexivity. Qed.

Example client_ip_first_entry :
  get_client_ip {| method := "POST";
                   headers := [("x-forwarded-for", "  198.51.100.4 ,10.1.1.1")];
                   remote_addr := Some "10.0.0.9";
                   get_json := JNull |} = Some "198.51.100.4".
Proof. reflexivity. Qed.

Example client_ip_fallback :
  get_client_ip {| method := "POST"; headers := []; remote_addr := Some "10.0.0.9";
                   get_json := JNull |} = Some "10.0.0.9".
Proof. reflexivity. Qed.

Example table_ref_default : table_ref cfg0 = "None.ml_prediction_logs.potw_predictions".
Proof. reflexivity. Qed.

(** * More of the code *)

Lemma outbound_cons_print (line : log_line) (tr : list event) :
  outbound (EvPrint line :: tr) = outbound tr.
Proof. reflexivity. Qed.

Lemma printed_sink_log_accepts : printed (sink_log (Ok [])) = [].
Proof. reflexivity. Qed.

(** ** Properties of the handler beyond the claims *)

(** X1. A valid request whose upstream call returns status 200 with a body
    that [response.json()] cannot decode is answered with the upstream's
    raw body and status 200 all the same; the row submitted to the sink has
    empty [predictions] and [status_code = 200]. *)
Theorem undecodable_body_passthrough (cfg : Config) (w : World) (request : Request)
    (response : Response) (e : exn) :
  valid_request request = true ->
  upstream cfg w request = Ok response ->
  status_code response = 200 ->
  json_ response = Raise e ->
  isinstance_JSONDecodeError e = true ->
  exists row,
    (handle cfg w request).1 =
      Ok (Bytes (content response), 200, json_headers cors_headers) /\
    audit_attempts (handle cfg w request).2 = [[row]] /\
    row_predictions row = JArr [] /\
    row_status_code row = 200.
Proof.
  intros Hv Hup H200 Hjs He.
  destruct (valid_request_inv _ Hv) as (m & ws & _ & Hj & Hk & _).
  assert (Hws : week_start_of (get_json request) = Some ws)
    by (unfold week_start_of; rewrite Hj; exact Hk).
  rewrite (handle_upstream_returned cfg w request response ws (JArr []) Hv Hws Hup)
    by (intros st; apply decoded_parse; apply (DecodedInvalid response e); assumption).
  exists (audit_row w request ws (JArr []) 1 (status_code response)).
  cbn [fst snd audit_attempts post_event]. autorewrite with trace.
  rewrite H200. repeat split; reflexivity.
Qed.

Lemma undecodable_body_passthrough_witness :
  valid_request (post_request week_2024) = true /\
  exists row,
    (handle cfg0 world_garbled (post_request week_2024)).1 =
      Ok (Bytes "<html>oops</html>", 200, json_headers cors_headers) /\
    audit_attempts (handle cfg0 world_garbled (post_request week_2024)).2 = [[row]] /\
    row_predictions row = JArr [] /\
    row_status_code row = 200.
Proof.
  split; [vm_compute; reflexivity|].
  apply (undecodable_body_passthrough cfg0 world_garbled (post_request week_2024)
           (response_of 200 "<html>oops</html>"
              (Raise (RequestsJSONDecodeError "Expecting value")))
           (RequestsJSONDecodeError "Expecting value"));
    vm_compute; reflexivity.
Defined.

(** X2. The handler never lets an exception escape: whatever the upstream
    and the sink do, it returns a response, and the response carries the
    three CORS headers; every response but the preflight's also carries
    [Content-Type: application/json], the preflight's does not. *)
Theorem every_response_has_cors (cfg : Config) (w : World) (request : Request) :
  exists b status hdrs,
    (handle cfg w request).1 = Ok (b, status, hdrs) /\
    cors_headers ⊆ hdrs /\
    hdrs !! "Content-Type" =
      if String.eqb (method request) "OPTIONS" then None else Some "application/json".
Proof.
  destruct (handle_outcome cfg w request) as (resp & n & evs & -> & Hout).
  assert (Hsub : cors_headers ⊆ json_headers cors_headers)
    by (unfold json_headers; apply map_union_subseteq_l).
  assert (Hct : json_headers cors_headers !! "Content-Type" = Some "application/json")
    by reflexivity.
  destruct Hout;
    try (match goal with H : method request = "OPTIONS" |- _ => rewrite H end;
         eexists _, _, _; split; [reflexivity|]; split; [reflexivity|reflexivity]);
    try (match goal with H : valid_request request = true |- _ =>
           destruct (valid_request_inv _ H) as (? & ? & -> & _) end);
    try (match goal with H : method request <> "OPTIONS" |- _ =>
           apply String.eqb_neq in H; rewrite H end);
    eexists _, _, _; (split; [reflexivity|]); split; assumption.
Qed.

(** ** What the events of one invocation contain *)

Lemma inserts_sink_log (r : result (list json)) : inserts (sink_log r) = [].
Proof. destruct r as [[|err errs]|e]; reflexivity. Qed.

Lemma inserts_sink_error_log (r : result (list json)) : inserts (sink_error_log r) = [].
Proof. destruct r as [errs|e]; reflexivity. Qed.

Lemma audit_attempts_inserts (tr : list event) : audit_attempts tr = map snd (inserts tr).
Proof.
  induction tr as [|ev tr IH]; [reflexivity|].
  destruct ev; simpl; rewrite ?IH; reflexivity.
Qed.

Lemma inserts_app (tr1 tr2 : list event) : inserts (tr1 ++ tr2) = inserts tr1 ++ inserts tr2.
Proof.
  induction tr1 as [|ev tr1 IH]; [reflexivity|].
  destruct ev; simpl; rewrite ?IH; reflexivity.
Qed.

Lemma printed_app (tr1 tr2 : list event) : printed (tr1 ++ tr2) = printed tr1 ++ printed tr2.
Proof.
  induction tr1 as [|ev tr1 IH]; [reflexivity|].
  destruct ev; simpl; rewrite ?IH; reflexivity.
Qed.

(** An invocation submits nothing to the sink, or exactly one row to the
    configured table; the row is made of the request, of two clock readings
    and of the status the caller gets. *)
Lemma outcome_inserts (cfg : Config) (w : World) (request : Request) (k0 : nat)
    (resp : HttpResult) (n : nat) (evs : list event) :
  outcome cfg w request k0 resp n evs ->
  (inserts evs = [] /\ reaches_audit_write cfg w request = false) \/
  (exists ws predictions k,
      valid_request request = true /\
      reaches_audit_write cfg w request = true /\
      week_start_of (get_json request) = Some ws /\
      (k0 < k < k0 + n)%nat /\
      inserts evs = [(table_ref cfg, [row_at w request ws predictions k0 k resp.1.2])]).
Proof.
  unfold reaches_audit_write.
  intros [Hm|Hm Ht|e Hm Ht Hd|m Hm Hj Ht Hw|ws response predictions Hv Hws Hup Hd row
          |ws e Hv Hws Hup He row|e Hv Hup He|ws response e Hv Hws Hup H200 Hjs Hd He row
          |response e Hv Hup H200 Hjs Hd He].
  - left. rewrite valid_request_false by tauto. split; reflexivity.
  - left. rewrite valid_request_false by tauto. split; reflexivity.
  - left. rewrite valid_request_false by tauto. split; reflexivity.
  - left. rewrite valid_request_false by (right; right; right; eauto). split; reflexivity.
  - right. exists ws, predictions, (S k0). rewrite Hv, Hup.
    split; [reflexivity|]. split.
    { destruct Hd as [H | v H Hj | e H Hj He].
      - apply Z.eqb_neq in H. rewrite H. reflexivity.
      - rewrite H, Hj. reflexivity.
      - rewrite H, Hj, He. reflexivity. }
    split; [assumption|]. split; [lia|].
    cbn [inserts post_event]. rewrite inserts_sink_log. reflexivity.
  - right. exists ws, (JArr []), (S k0). rewrite Hv, Hup, He.
    repeat split; try assumption; try lia.
    cbn [inserts post_event]. rewrite inserts_sink_error_log. reflexivity.
  - left. rewrite Hv, Hup, He. split; reflexivity.
  - right. exists ws, (JArr []), (S (S k0)). rewrite Hv, Hup, H200, Hjs, Hd, He.
    repeat split; try assumption; try lia.
    cbn [inserts post_event]. rewrite inserts_sink_error_log. reflexivity.
  - left. rewrite Hv, Hup, H200, Hjs, Hd, He. split; reflexivity.
Qed.

(** X3. The [status_code] written in an audit row is the status the caller
    receives: whenever a row is submitted, the handler returns a response
    with that very status. *)
Theorem logged_status_is_returned_status (cfg : Config) (w : World) (request : Request)
    (row : Row) :
  In row (concat (audit_attempts (handle cfg w request).2)) ->
  exists b hdrs, (handle cfg w request).1 = Ok (b, row_status_code row, hdrs).
Proof.
  destruct (handle_outcome cfg w request) as (resp & n & evs & -> & Hout).
  cbn [fst snd]. rewrite audit_attempts_inserts.
  destruct (outcome_inserts _ _ _ _ _ _ _ Hout) as [[-> _]|(ws & p & k & _ & _ & _ & _ & ->)].
  - intros [].
  - cbn [map snd concat app In]. intros [<-|[]].
    destruct resp as [[b status] hdrs]. exists b, hdrs. reflexivity.
Qed.

Lemma logged_status_is_returned_status_witness :
  exists b hdrs,
    (handle cfg0 world_unavailable (post_request week_2024)).1 = Ok (b, 503, hdrs).
Proof.
  apply (logged_status_is_returned_status cfg0 world_unavailable (post_request week_2024)
           (audit_row world_unavailable (post_request week_2024) (JStr "2024-01-01")
              (JArr []) 1 503)).
  vm_compute. left. reflexivity.
Defined.

(** X4. The calls the handler makes to its collaborators, in order: none
    for a request that fails validation; for a valid request the POST of
    the unchanged body to the configured URL (JSON content type, timeout
    30) comes first, and is followed by at most one insertion, into the
    configured table; nothing else is called and the POST is never retried. *)
Theorem outbound_calls_in_order (cfg : Config) (w : World) (request : Request) :
  outbound (handle cfg w request).2 =
    (if valid_request request
     then EvPost (ORIGINAL_FUNCTION_URL cfg) (get_json request)
                 (<["Content-Type" := "application/json"]> ∅) 30
          :: map (EvInsert (table_ref cfg)) (audit_attempts (handle cfg w request).2)
     else []) /\
  (length (audit_attempts (handle cfg w request).2) <= 1)%nat.
Proof.
  destruct (handle_outcome cfg w request) as (resp & n & evs & -> & Hout).
  cbn [fst snd].
  destruct Hout;
    try (rewrite valid_request_false by (first [tauto | right; right; right; eauto]);
         split; [reflexivity|simpl; lia]);
    match goal with H : valid_request request = true |- _ => rewrite H end;
    cbn [outbound audit_attempts post_event map];
    rewrite ?outbound_sink_log, ?outbound_sink_error_log,
      ?audit_attempts_sink_log, ?audit_attempts_sink_error_log;
    split; try reflexivity; simpl; lia.
Qed.

(** X5. Where an audit row comes from: every insertion goes to the table
    [PROJECT_ID.DATASET_ID.TABLE_ID] and carries a single row, whose
    [timestamp] is the current UTC time, whose [client_ip] is the client
    address worked out at entry, and whose [week_start] is the (non-empty)
    [week_start] of the request body; the fallback ["unknown"] of line 126
    is never written unless the body says so. *)
Theorem audit_row_provenance (cfg : Config) (w : World) (request : Request)
    (table : string) (rows : list Row) :
  In (table, rows) (inserts (handle cfg w request).2) ->
  table = table_ref cfg /\
  exists row,
    rows = [row] /\
    row_timestamp row = utcnow_isoformat w /\
    row_client_ip row = get_client_ip request /\
    week_start_of (get_json request) = Some (row_week_start row) /\
    truthy (row_week_start row) = true.
Proof.
  destruct (handle_outcome cfg w request) as (resp & n & evs & -> & Hout).
  cbn [fst snd].
  destruct (outcome_inserts _ _ _ _ _ _ _ Hout)
    as [[-> _]|(ws & p & k & Hv & _ & Hws & _ & ->)].
  - intros [].
  - intros [[= <- <-]|[]]. split; [reflexivity|].
    eexists. split; [reflexivity|]. cbn [row_at row_timestamp row_client_ip row_week_start].
    repeat split; try assumption.
    unfold valid_request in Hv. rewrite Hws in Hv.
    apply andb_prop in Hv as [_ Hv]. exact Hv.
Qed.

Lemma audit_row_provenance_witness :
  "None.ml_prediction_logs.potw_predictions" = table_ref cfg0 /\
  exists row,
    [audit_row world_timeout (post_request week_2024) (JStr "2024-01-01") (JArr []) 1 500]
      = [row] /\
    row_timestamp row = utcnow_isoformat world_timeout /\
    row_client_ip row = get_client_ip (post_request week_2024) /\
    week_start_of (get_json (post_request week_2024)) = Some (row_week_start row) /\
    truthy (row_week_start row) = true.
Proof.
  apply (audit_row_provenance cfg0 world_timeout (post_request week_2024)).
  vm_compute. left. reflexivity.
Defined.

(** The decoded bodies Python takes for false. *)
Lemma truthy_false (v : json) :
  truthy v = false <->
  v = JNull \/ v = JBool false \/ v = JInt 0 \/ (exists s, v = JFloat (S754_zero s)) \/
  v = JStr EmptyString \/ v = JArr [] \/ v = JObj ∅.
Proof.
  split.
  - destruct v as [|b|z|f|s|l|m]; cbn [truthy]; intros H.
    + tauto.
    + destruct b; [discriminate|tauto].
    + destruct z; try discriminate. tauto.
    + destruct f; try discriminate. right; right; right; left. eauto.
    + destruct s; [tauto|discriminate].
    + destruct l; [tauto|discriminate].
    + right; right; right; right; right; right. f_equal.
      apply map_size_empty_inv. destruct (size m); [reflexivity|discriminate].
  - intros [->|[->|[->|[[s ->]|[->|[->| ->]]]]]]; reflexivity.
Qed.

(** X6. The guard [if not request_json] rejects every body that Python
    takes for false, not only a missing or undecodable one: a request that
    is no preflight and whose body decodes to [null], [false], [0], [0.0],
    the empty string, [[]] or [{}] is answered 400 "Request must be JSON",
    with no upstream call, no audit row and nothing printed. *)
Theorem falsy_body_rejected (cfg : Config) (w : World) (request : Request) :
  method request <> "OPTIONS" ->
  get_json request = JNull \/ get_json request = JBool false \/ get_json request = JInt 0 \/
  (exists s, get_json request = JFloat (S754_zero s)) \/
  get_json request = JStr EmptyString \/ get_json request = JArr [] \/
  get_json request = JObj ∅ ->
  handle cfg w request = (Ok (error_response "Request must be JSON" 400), []).
Proof.
  intros Hm Hf. apply truthy_false in Hf.
  destruct (handle_outcome cfg w request) as (resp & n & evs & -> & Hout).
  destruct Hout; try reflexivity; try congruence;
    match goal with H : valid_request request = true |- _ =>
      destruct (valid_request_inv _ H) as (m' & ws' & _ & Hj & Hk & _) end;
    rewrite Hj, (truthy_dict m' _ ws' Hk) in Hf; discriminate.
Qed.

Lemma falsy_body_rejected_witness :
  handle cfg0 world_player (post_request (JArr [])) =
    (Ok (error_response "Request must be JSON" 400), []).
Proof.
  apply (falsy_body_rejected cfg0 world_player (post_request (JArr []))).
  - vm_compute. discriminate.
  - do 5 right. left. reflexivity.
Defined.

(** X7. A body that is valid JSON and true for Python but no object (a
    non-empty array or string, a number other than zero, [true]) makes
    [request_json.get] fail: the handler answers 500 "Internal server
    error" from its last [except] clause, having called neither the
    upstream nor the sink. *)
Theorem non_object_body_internal_error (cfg : Config) (w : World) (request : Request) :
  method request <> "OPTIONS" ->
  truthy (get_json request) = true ->
  (forall m, get_json request <> JObj m) ->
  (handle cfg w request).1 = Ok (error_response "Internal server error" 500) /\
  outbound (handle cfg w request).2 = [] /\
  exists e, (handle cfg w request).2 = [EvPrint (LogUnexpected e)].
Proof.
  intros Hm Ht Hd.
  destruct (handle_outcome cfg w request) as (resp & n & evs & -> & Hout).
  destruct Hout; try congruence;
    try (match goal with H : valid_request request = true |- _ =>
           destruct (valid_request_inv _ H) as (m' & ws' & _ & Hj & _) end;
         destruct (Hd m' Hj)).
  cbn [fst snd]. repeat split. eexists. reflexivity.
Qed.

Lemma non_object_body_internal_error_witness :
  (handle cfg0 world_player (post_request (JArr [JInt 1]))).1 =
    Ok (error_response "Internal server error" 500) /\
  outbound (handle cfg0 world_player (post_request (JArr [JInt 1]))).2 = [] /\
  exists e, (handle cfg0 world_player (post_request (JArr [JInt 1]))).2 =
              [EvPrint (LogUnexpected e)].
Proof.
  apply (non_object_body_internal_error cfg0 world_player (post_request (JArr [JInt 1]))).
  - vm_compute. discriminate.
  - reflexivity.
  - intros m. discriminate.
Defined.

(** X8. When the upstream call fails with an exception that is no
    [RequestException], the last [except] clause answers 500 "Internal
    server error": the POST was made, the error is printed, and, unlike for
    a transport error, no audit row is attempted. *)
Theorem unexpected_upstream_error_not_audited (cfg : Config) (w : World) (request : Request)
    (e : exn) :
  valid_request request = true ->
  upstream cfg w request = Raise e ->
  isinstance_RequestException e = false ->
  (handle cfg w request).1 = Ok (error_response "Internal server error" 500) /\
  upstream_calls (handle cfg w request).2 = [get_json request] /\
  audit_attempts (handle cfg w request).2 = [] /\
  printed (handle cfg w request).2 = [LogUnexpected e].
Proof.
  intros Hv Hup He.
  destruct (handle_outcome cfg w request) as (resp & n & evs & -> & Hout).
  destruct Hout;
    try (rewrite valid_request_false in Hv
           by (first [tauto | right; right; right; eauto]); discriminate);
    try congruence.
  match goal with H : upstream cfg w request = Raise _ |- _ =>
    rewrite H in Hup; injection Hup as -> end.
  repeat split.
Qed.

Lemma unexpected_upstream_error_not_audited_witness :
  (handle cfg0 world_broken (post_request week_2024)).1 =
    Ok (error_response "Internal server error" 500) /\
  upstream_calls (handle cfg0 world_broken (post_request week_2024)).2 = [week_2024] /\
  audit_attempts (handle cfg0 world_broken (post_request week_2024)).2 = [] /\
  printed (handle cfg0 world_broken (post_request week_2024)).2 =
    [LogUnexpected (OtherException "unexpected")].
Proof.
  apply (unexpected_upstream_error_not_audited cfg0 world_broken (post_request week_2024)
           (OtherException "unexpected")); vm_compute; reflexivity.
Defined.

(** X9. On the transport-error path the value returned by
    [insert_rows_json] is dropped (line 132): whatever row errors the sink
    reports, the only line printed is the upstream error; the rejection of
    the row leaves no trace in the log. *)
Theorem error_path_ignores_row_errors (cfg : Config) (w : World) (request : Request)
    (e : exn) (errors : list json) :
  valid_request request = true ->
  upstream cfg w request = Raise e ->
  isinstance_RequestException e = true ->
  (forall rows, insert_rows_json w (table_ref cfg) rows = Ok errors) ->
  printed (handle cfg w request).2 = [LogUpstreamError e] /\
  length (audit_attempts (handle cfg w request).2) = 1%nat.
Proof.
  intros Hv Hup He Hsink.
  destruct (handle_outcome cfg w request) as (resp & n & evs & -> & Hout).
  destruct Hout;
    try (rewrite valid_request_false in Hv
           by (first [tauto | right; right; right; eauto]); discriminate);
    try congruence.
  match goal with H : upstream cfg w request = Raise _ |- _ =>
    rewrite H in Hup; injection Hup as -> end.
  cbn [fst snd printed audit_attempts post_event]. rewrite Hsink.
  split; reflexivity.
Qed.

Lemma error_path_ignores_row_errors_witness :
  printed (handle cfg0 (with_sink world_timeout sink_rejects) (post_request week_2024)).2 =
    [LogUpstreamError (RequestException "Read timed out. (read timeout=30)")] /\
  length (audit_attempts
            (handle cfg0 (with_sink world_timeout sink_rejects) (post_request week_2024)).2)
    = 1%nat.
Proof.
  apply (error_path_ignores_row_errors cfg0 (with_sink world_timeout sink_rejects)
           (post_request week_2024) (RequestException "Read timed out. (read timeout=30)")
           [JObj (<["index" := JInt 0]> ∅)]);
    first [intros rows; reflexivity | vm_compute; reflexivity].
Defined.

(** X10. On the success path the sink's answer decides what is printed, and
    nothing else does: no line when the sink accepts the row, the list of
    row errors when it returns some, the exception when it raises. *)
Theorem success_path_log (cfg : Config) (w : World) (request : Request)
    (response : Response) (predictions : json) :
  valid_request request = true ->
  upstream cfg w request = Ok response ->
  decoded response predictions ->
  exists row,
    audit_attempts (handle cfg w request).2 = [[row]] /\
    printed (handle cfg w request).2 =
      match insert_rows_json w (table_ref cfg) [row] with
      | Ok [] => []
      | Ok errors => [LogInsertErrors errors]
      | Raise e => [LogFailedToLog e]
      end.
Proof.
  intros Hv Hup Hd.
  destruct (valid_request_inv _ Hv) as (m & ws & _ & Hj & Hk & _).
  assert (Hws : week_start_of (get_json request) = Some ws)
    by (unfold week_start_of; rewrite Hj; exact Hk).
  rewrite (handle_upstream_returned cfg w request response ws predictions Hv Hws Hup)
    by (intros st; apply decoded_parse; exact Hd).
  eexists. cbn [fst snd audit_attempts printed post_event].
  rewrite audit_attempts_sink_log. split; [reflexivity|].
  destruct (insert_rows_json w (table_ref cfg) _) as [[|err errs]|e]; reflexivity.
Qed.

Lemma success_path_log_witness :
  exists row,
    audit_attempts
      (handle cfg0 (with_sink world_player sink_rejects) (post_request week_2024)).2
      = [[row]] /\
    printed (handle cfg0 (with_sink world_player sink_rejects) (post_request week_2024)).2 =
      match insert_rows_json (with_sink world_player sink_rejects) (table_ref cfg0) [row] with
      | Ok [] => []
      | Ok errors => [LogInsertErrors errors]
      | Raise e => [LogFailedToLog e]
      end.
Proof.
  apply (success_path_log cfg0 (with_sink world_player sink_rejects) (post_request week_2024)
           (response_of 200 "[{...}]" (Ok (JArr [player_a]))) (JArr [player_a])).
  - vm_compute. reflexivity.
  - reflexivity.
  - apply DecodedValue; reflexivity.
Defined.

(** ** The client address *)

Lemma contains_comma_split_comma_first (s : string) :
  contains_comma (split_comma_first s) = false.
Proof.
  induction s as [|c s IH]; [reflexivity|]. cbn [split_comma_first].
  destruct (is_comma c) eqn:Hc; [reflexivity|].
  cbn [contains_comma]. rewrite Hc, IH. reflexivity.
Qed.

Lemma contains_comma_lstrip (s : string) :
  contains_comma s = false -> contains_comma (lstrip s) = false.
Proof.
  induction s as [|c s IH]; [reflexivity|]. cbn [lstrip].
  destruct (is_space c); [|tauto].
  cbn [contains_comma]. intros H. apply orb_false_elim in H as [_ H]. auto.
Qed.

Lemma contains_comma_rstrip (s : string) :
  contains_comma s = false -> contains_comma (rstrip s) = false.
Proof.
  induction s as [|c s IH]; [reflexivity|]. cbn [contains_comma rstrip].
  intros H. apply orb_false_elim in H as [Hc H]. specialize (IH H).
  destruct (rstrip s) as [|d r].
  - destruct (is_space c); [reflexivity|]. cbn [contains_comma]. rewrite Hc. reflexivity.
  - cbn [contains_comma] in *. rewrite Hc. exact IH.
Qed.

Lemma clean_head_lstrip (s : string) : clean_head (lstrip s) = true.
Proof.
  induction s as [|c s IH]; [reflexivity|]. cbn [lstrip].
  destruct (is_space c) eqn:Hc; [exact IH|]. cbn [clean_head]. rewrite Hc. reflexivity.
Qed.

Lemma lstrip_clean_head (s : string) : clean_head s = true -> lstrip s = s.
Proof.
  destruct s as [|c s]; [reflexivity|]. cbn [clean_head lstrip].
  destruct (is_space c); [discriminate|reflexivity].
Qed.

Lemma clean_head_rstrip (s : string) : clean_head s = true -> clean_head (rstrip s) = true.
Proof.
  destruct s as [|c s]; [reflexivity|]. cbn [clean_head rstrip].
  destruct (is_space c) eqn:Hc; [discriminate|]. intros _.
  destruct (rstrip s); cbn [clean_head]; rewrite Hc; reflexivity.
Qed.

Lemma rstrip_rstrip (s : string) : rstrip (rstrip s) = rstrip s.
Proof.
  induction s as [|c s IH]; [reflexivity|]. cbn [rstrip].
  destruct (rstrip s) as [|d r] eqn:Hr.
  - destruct (is_space c) eqn:Hc; [reflexivity|]. cbn [rstrip]. rewrite Hc. reflexivity.
  - change (rstrip (String c (String d r))) with
      (match rstrip (String d r) with
       | EmptyString => if is_space c then EmptyString else String c EmptyString
       | r' => String c r'
       end).
    rewrite IH. reflexivity.
Qed.

Lemma lstrip_strip (s : string) : lstrip (strip s) = strip s.
Proof. apply lstrip_clean_head, clean_head_rstrip, clean_head_lstrip. Qed.

(** X11. The client address written to the audit row never contains a
    comma: of a forwarded-for list only one entry is kept, whatever the
    header and the remote address are. *)
Theorem client_ip_has_no_comma (request : Request) (ip : string) :
  get_client_ip request = Some ip -> contains_comma ip = false.
Proof.
  unfold get_client_ip.
  destruct (headers_get (headers request) "X-Forwarded-For" (remote_addr request))
    as [raw|]; [|discriminate].
  destruct (negb (String.eqb raw EmptyString)) eqn:He;
    destruct (contains_comma raw) eqn:Hc; cbn [andb]; intros [= <-];
    try exact Hc.
  - unfold strip.
    apply contains_comma_rstrip, contains_comma_lstrip, contains_comma_split_comma_first.
  - apply negb_false_iff, String.eqb_eq in He. subst raw. discriminate.
Qed.

Lemma client_ip_has_no_comma_witness : contains_comma "203.0.113.7" = false.
Proof.
  apply (client_ip_has_no_comma (post_request week_2024) "203.0.113.7").
  vm_compute. reflexivity.
Defined.

(** X12. When the forwarded-for header (or, without it, the remote
    address) holds a comma, the client address is the text before the
    first comma with the white space at both ends removed: stripping it
    again changes nothing. Without a comma the value is taken as it is,
    white space included. *)
Theorem forwarded_for_first_entry_stripped (request : Request) (raw : string) :
  headers_get (headers request) "X-Forwarded-For" (remote_addr request) = Some raw ->
  if contains_comma raw
  then exists ip,
         get_client_ip request = Some ip /\
         ip = strip (split_comma_first raw) /\
         lstrip ip = ip /\ rstrip ip = ip
  else get_client_ip request = Some raw.
Proof.
  intros Hraw. unfold get_client_ip. rewrite Hraw.
  destruct (contains_comma raw) eqn:Hc.
  - destruct raw as [|c raw]; [discriminate|]. cbn [String.eqb negb andb].
    eexists. split; [reflexivity|]. split; [reflexivity|]. split.
    + apply lstrip_strip.
    + unfold strip. apply rstrip_rstrip.
  - rewrite andb_false_r. reflexivity.
Qed.

Lemma forwarded_for_first_entry_stripped_witness :
  if contains_comma "203.0.113.7, 10.0.0.1"
  then exists ip,
         get_client_ip (post_request week_2024) = Some ip /\
         ip = strip (split_comma_first "203.0.113.7, 10.0.0.1") /\
         lstrip ip = ip /\ rstrip ip = ip
  else get_client_ip (post_request week_2024) = Some "203.0.113.7, 10.0.0.1".
Proof.
  apply (forwarded_for_first_entry_stripped (post_request week_2024) "203.0.113.7, 10.0.0.1").
  vm_compute. reflexivity.
Defined.

(** ** The elapsed time is a number *)

Lemma SFsub_finite_not_nan (x y : spec_float) :
  Float64.is_finite x = true -> Float64.is_finite y = true ->
  Float64.sub x y <> S754_nan.
Proof.
  unfold Float64.sub.
  destruct x as [sx|sx| |sx mx ex], y as [sy|sy| |sy my ey]; try discriminate; intros _ _.
  - destruct sx, sy; discriminate.
  - unfold SFsub, binary_normalize.
    destruct (cond_Zopp sx _ - cond_Zopp sy _) as [|p|p]; [discriminate| |];
      unfold binary_round; destruct (shl_align p _ _) as [mz ez];
      match goal with |- binary_round_aux _ _ ?s ?m ?e ?l <> _ =>
        pose proof (binary_round_aux_sign Float64.prec Float64.emax s m e l ltac:(lia)) as Hs;
        destruct (binary_round_aux Float64.prec Float64.emax s m e l);
        [discriminate|discriminate|contradiction|discriminate]
      end.
Qed.

Lemma SFmul_1000_not_nan (x : spec_float) :
  x <> S754_nan -> Float64.mul x (Float64.of_Z 1000) <> S754_nan.
Proof.
  rewrite of_Z_1000. unfold Float64.mul.
  destruct x as [s|s| |s m e]; cbn [SFmul]; intros H; try discriminate; [congruence|].
  match goal with |- binary_round_aux _ _ ?s ?m ?e ?l <> _ =>
    pose proof (binary_round_aux_sign Float64.prec Float64.emax s m e l ltac:(lia)) as Hs;
    destruct (binary_round_aux Float64.prec Float64.emax s m e l);
    [discriminate|discriminate|contradiction|discriminate]
  end.
Qed.

(** X13. As long as [time.time()] returns finite numbers, the
    [response_time_ms] of every audit row is a number and not a NaN,
    also when the clock was set back during the request. *)
Theorem response_time_is_a_number (cfg : Config) (w : World) (request : Request) (row : Row) :
  (forall k, Float64.is_finite (time_time w k) = true) ->
  In row (concat (audit_attempts (handle cfg w request).2)) ->
  row_response_time_ms row <> S754_nan.
Proof.
  intros Hfin.
  destruct (handle_outcome cfg w request) as (resp & n & evs & -> & Hout).
  cbn [fst snd]. rewrite audit_attempts_inserts.
  destruct (outcome_inserts _ _ _ _ _ _ _ Hout) as [[-> _]|(ws & p & k & _ & _ & _ & _ & ->)].
  - intros [].
  - cbn [map snd concat app In]. intros [<-|[]].
    cbn [row_at row_response_time_ms]. unfold elapsed.
    apply SFmul_1000_not_nan, SFsub_finite_not_nan; apply Hfin.
Qed.

Lemma response_time_is_a_number_witness :
  row_response_time_ms
    (audit_row world_clock_back (post_request week_2024) (JStr "2024-01-01") (JArr []) 1 200)
  <> S754_nan.
Proof.
  apply (response_time_is_a_number cfg0 world_clock_back (post_request week_2024)).
  - intros [|k]; reflexivity.
  - vm_compute. left. reflexivity.
Defined.

(** ** One invocation after another *)

Lemma outcome_upstream_calls (cfg : Config) (w : World) (request : Request) (k0 : nat)
    (resp : HttpResult) (n : nat) (evs : list event) :
  outcome cfg w request k0 resp n evs ->
  upstream_calls evs = if valid_request request then [get_json request] else [].
Proof.
  intros H; destruct H;
    try (rewrite valid_request_false by (first [tauto | right; right; right; eauto]);
         reflexivity);
    match goal with H : valid_request request = true |- _ => rewrite H end;
    cbn [upstream_calls post_event];
    rewrite ?upstream_calls_sink_log, ?upstream_calls_sink_error_log; reflexivity.
Qed.

Lemma outcome_audit_count (cfg : Config) (w : World) (request : Request) (k0 : nat)
    (resp : HttpResult) (n : nat) (evs : list event) :
  outcome cfg w request k0 resp n evs ->
  length (audit_attempts evs) = if reaches_audit_write cfg w request then 1%nat else 0%nat.
Proof.
  intros H. rewrite audit_attempts_inserts.
  destruct (outcome_inserts _ _ _ _ _ _ _ H) as [[-> ->]|(ws & p & k & _ & -> & _ & _ & ->)];
    reflexivity.
Qed.

Lemma outcome_ticks (cfg : Config) (w : World) (request : Request) (k0 : nat)
    (resp : HttpResult) (n : nat) (evs : list event) :
  outcome cfg w request k0 resp n evs -> (1 <= n <= 3)%nat.
Proof. intros H; destruct H; lia. Qed.

(** The response does not depend on the position of the clock. *)
Lemma outcome_response_unique (cfg : Config) (w : World) (request : Request)
    (k1 k2 n1 n2 : nat) (resp1 resp2 : HttpResult) (evs1 evs2 : list event) :
  outcome cfg w request k1 resp1 n1 evs1 ->
  outcome cfg w request k2 resp2 n2 evs2 ->
  resp1 = resp2.
Proof.
  intros H1 H2.
  destruct H1; destruct H2; try reflexivity;
    repeat match goal with
           | H : decoded _ _ |- _ => destruct H
           end;
    try congruence;
    try (exfalso;
         match goal with
         | H : valid_request request = true |- _ =>
             rewrite valid_request_false in H
               by (first [tauto | right; right; right; eauto]); discriminate
         end).
Qed.

(** X14. The handler keeps nothing from one invocation to the next: in a
    process that has already served requests (any earlier clock readings,
    any earlier trace) it returns the response it returns in a fresh
    process, leaves the earlier events as they are, and makes the same
    upstream calls and the same number of insertions. *)
Theorem response_independent_of_history (cfg : Config) (w : World) (request : Request)
    (st : State) :
  exists resp n evs,
    predict_with_logging cfg w request st =
      (Ok resp, {| ticks := n + ticks st; trace := trace st ++ evs;
                   reads := reads st ++ readings (length (trace st)) n |}) /\
    (handle cfg w request).1 = Ok resp /\
    upstream_calls evs = upstream_calls (handle cfg w request).2 /\
    length (audit_attempts evs) = length (audit_attempts (handle cfg w request).2).
Proof.
  destruct (predict_outcome cfg w request st) as (resp & n & evs & Hrun & Hout).
  destruct (handle_outcome cfg w request) as (resp0 & n0 & evs0 & -> & Hout0).
  exists resp, n, evs. cbn [fst snd].
  rewrite (outcome_response_unique _ _ _ _ _ _ _ _ _ _ _ Hout0 Hout).
  rewrite (outcome_upstream_calls _ _ _ _ _ _ _ Hout),
    (outcome_upstream_calls _ _ _ _ _ _ _ Hout0),
    (outcome_audit_count _ _ _ _ _ _ _ Hout), (outcome_audit_count _ _ _ _ _ _ _ Hout0).
  repeat split. exact Hrun.
Qed.

(** X15. [start_time] is read anew at each invocation: in a process whose
    clock has been read [ticks st] times before, the [response_time_ms] of
    the row is [(t - start_time) * 1000] for the reading [start_time] taken
    at this invocation's entry and one of the at most two readings [t]
    that follow it; the invocation reads the clock one to three times. *)
Theorem response_time_per_invocation (cfg : Config) (w : World) (request : Request)
    (st : State) :
  exists n,
    ticks (predict_with_logging cfg w request st).2 = (n + ticks st)%nat /\
    (1 <= n <= 3)%nat /\
    forall row,
      In row (concat (audit_attempts
                        (drop (length (trace st))
                              (trace (predict_with_logging cfg w request st).2)))) ->
      exists k, (ticks st < k < n + ticks st)%nat /\
                row_response_time_ms row =
                  Float64.mul (Float64.sub (time_time w k) (time_time w (ticks st)))
                              (Float64.of_Z 1000).
Proof.
  destruct (predict_outcome cfg w request st) as (resp & n & evs & -> & Hout).
  exists n. cbn [snd ticks trace]. split; [reflexivity|].
  split; [exact (outcome_ticks _ _ _ _ _ _ _ Hout)|].
  rewrite drop_app_length, audit_attempts_inserts.
  destruct (outcome_inserts _ _ _ _ _ _ _ Hout) as [[-> _]|(ws & p & k & _ & _ & _ & Hk & ->)].
  - intros row [].
  - cbn [map snd concat app In]. intros row [<-|[]].
    exists k. split; [lia|reflexivity].
Qed.

Lemma serve_run (cfg : Config) (w : World) (requests : list Request) :
  forall st, exists resps n evs rs,
    serve cfg w requests st =
      (Ok resps, {| ticks := n + ticks st; trace := trace st ++ evs;
                    reads := reads st ++ rs |}) /\
    Forall2 (fun request resp => (handle cfg w request).1 = Ok resp) requests resps /\
    upstream_calls evs = map get_json (List.filter valid_request requests) /\
    length (audit_attempts evs) = audited cfg w requests.
Proof.
  induction requests as [|request rest IH]; intros st.
  - exists [], 0%nat, [], []. cbn [serve]. rewrite ret_run, !app_nil_r.
    destruct st. repeat split. constructor.
  - destruct (predict_outcome cfg w request st) as (resp & n1 & evs1 & Hrun & Hout).
    destruct (IH {| ticks := n1 + ticks st; trace := trace st ++ evs1;
                    reads := reads st ++ readings (length (trace st)) n1 |})
      as (resps & n2 & evs2 & rs & Hrest & Hall & Hup & Hau).
    destruct (handle_outcome cfg w request) as (resp0 & n0 & evs0 & Hh & Hout0).
    exists (resp :: resps), (n2 + n1)%nat, (evs1 ++ evs2),
      (readings (length (trace st)) n1 ++ rs).
    cbn [serve]. rewrite bind_run, Hrun, bind_run, Hrest, ret_run.
    cbn [ticks trace reads]. rewrite Nat.add_assoc, <- !app_assoc.
    split; [reflexivity|]. split.
    { constructor; [|exact Hall]. rewrite Hh.
      rewrite (outcome_response_unique _ _ _ _ _ _ _ _ _ _ _ Hout0 Hout). reflexivity. }
    rewrite upstream_calls_app, audit_attempts_app, length_app, Hup, Hau.
    rewrite (outcome_upstream_calls _ _ _ _ _ _ _ Hout),
      (outcome_audit_count _ _ _ _ _ _ _ Hout).
    cbn [List.filter audited]. destruct (valid_request request); split; reflexivity.
Qed.

(** X16. A process that serves a list of requests one after the other
    answers each of them as a fresh process would, posts to the upstream
    once for each valid request, in the order of arrival, and attempts one
    insertion for each request that gets as far as the audit write: rows
    are neither batched nor dropped as duplicates. *)
Theorem serve_requests_in_turn (cfg : Config) (w : World) (requests : list Request) :
  exists resps,
    (run (serve cfg w requests)).1 = Ok resps /\
    Forall2 (fun request resp => (handle cfg w request).1 = Ok resp) requests resps /\
    upstream_calls (run (serve cfg w requests)).2 =
      map get_json (List.filter valid_request requests) /\
    length (audit_attempts (run (serve cfg w requests)).2) = audited cfg w requests.
Proof.
  destruct (serve_run cfg w requests initial_state)
    as (resps & n & evs & rs & Hrun & Hall & Hup & Hau).
  exists resps. unfold run. rewrite Hrun. cbn [fst snd trace initial_state app].
  repeat split; assumption.
Qed.

(** ** The deployment and the handler *)

(** X17. Deployed by the stack of [__main__.py], the handler writes to the
    very table the stack creates and exports as [bigquery_table_full_id],
    and posts to the function named in the stack configuration; the
    dataset and table names the stack passes in the environment are the
    handler's own defaults, so the table is the same when only
    [GCP_PROJECT] is set. *)
Theorem deployed_table_is_exported_table (stack : Stack) :
  let cfg := config_of_environ (environment_variables stack) in
  table_ref cfg = bigquery_table_full_id stack /\
  table_ref (config_of_environ (<["GCP_PROJECT" := project stack]> ∅)) =
    bigquery_table_full_id stack /\
  ORIGINAL_FUNCTION_URL cfg =
    "https://" +:+ region stack +:+ "-" +:+ project stack +:+ ".cloudfunctions.net/"
    +:+ function_name stack.
Proof.
  cbn zeta. unfold table_ref, bigquery_table_full_id, config_of_environ,
    environment_variables.
  cbn [PROJECT_ID DATASET_ID TABLE_ID ORIGINAL_FUNCTION_URL].
  repeat split; simplify_map_eq; reflexivity.
Qed.

(** ** The audit row and the table schema *)

(** X18. What a submitted row has of the table created by the stack: its
    keys are exactly the six top-level columns of the schema, the two
    REQUIRED columns hold a value other than [None], and the four values
    the handler makes itself ([timestamp], [client_ip], [response_time_ms],
    [status_code]) have the shape their column declares. [week_start] and
    [predictions] are copied unchecked from the request and from the
    upstream: the whole row has the declared shape exactly when the
    request's [week_start] is a string and the decoded predictions have the
    shape of the [predictions] column. *)
Theorem audit_row_against_schema (cfg : Config) (w : World) (request : Request) (row : Row) :
  In row (concat (audit_attempts (handle cfg w request).2)) ->
  dom (row_dict row) = list_to_set (map column_name table_schema) /\
  required_present table_schema (row_dict row) /\
  (forall c, In c table_schema ->
     column_name c <> "week_start" -> column_name c <> "predictions" ->
     conforms c (default JNull (row_dict row !! column_name c)) = true) /\
  (row_conforms table_schema (row_dict row) = true <->
     (exists s, row_week_start row = JStr s) /\
     forall c, In c table_schema -> column_name c = "predictions" ->
       conforms c (row_predictions row) = true).
Proof.
  intros Hin. split.
  { unfold row_dict, table_schema. cbn [map column_name list_to_set].
    rewrite !dom_insert_L, dom_empty_L. set_solver. }
  assert (Hws : row_week_start row <> JNull).
  { revert Hin.
    destruct (handle_outcome cfg w request) as (resp & n & evs & -> & Hout).
    cbn [fst snd]. rewrite audit_attempts_inserts.
    destruct (outcome_inserts _ _ _ _ _ _ _ Hout)
      as [[-> _]|(ws & p & k & Hv & _ & Hw & _ & ->)].
    - intros [].
    - cbn [map snd concat app In]. intros [<-|[]]. cbn [row_at row_week_start].
      unfold valid_request in Hv. rewrite Hw in Hv. apply andb_prop in Hv as [_ Hv].
      intros ->. discriminate. }
  split.
  { intros c Hc Hmode. unfold table_schema in Hc. cbn [In] in Hc.
    destruct Hc as [<-|[<-|[<-|[<-|[<-|[<-|[]]]]]]]; try discriminate;
      cbn [column_name]; unfold row_dict; simplify_map_eq; eexists; (split; [reflexivity|]);
      [discriminate|exact Hws]. }
  assert (Hl : forall key, In key ["timestamp"; "week_start"; "predictions"; "client_ip";
                                     "response_time_ms"; "status_code"] ->
            default JNull (row_dict row !! key) =
              if String.eqb key "timestamp" then JStr (row_timestamp row)
              else if String.eqb key "week_start" then row_week_start row
              else if String.eqb key "predictions" then row_predictions row
              else if String.eqb key "client_ip"
                   then from_option JStr JNull (row_client_ip row)
              else if String.eqb key "response_time_ms"
                   then JFloat (row_response_time_ms row)
              else JInt (row_status_code row)).
  { intros key Hkey. cbn [In] in Hkey.
    destruct Hkey as [<-|[<-|[<-|[<-|[<-|[<-|[]]]]]]];
      unfold row_dict; simplify_map_eq; reflexivity. }
  split.
  { intros c Hc Hn1 Hn2. unfold table_schema in Hc. cbn [In] in Hc.
    destruct Hc as [<-|[<-|[<-|[<-|[<-|[<-|[]]]]]]]; cbn [column_name] in *;
      try congruence; rewrite Hl by (cbn [In]; tauto); cbn.
    - reflexivity.
    - destruct (row_client_ip row); reflexivity.
    - reflexivity.
    - reflexivity. }
  unfold row_conforms, table_schema. cbn [forallb column_name].
  rewrite !Hl by (cbn [In]; tauto).
  cbn [String.eqb Ascii.eqb Bool.eqb].
  set (pc := Column "predictions" _ _ _).
  assert (Hother : conforms (Column "timestamp" "TIMESTAMP" "REQUIRED" [])
                     (JStr (row_timestamp row)) = true /\
                   conforms (Column "client_ip" "STRING" "NULLABLE" [])
                     (from_option JStr JNull (row_client_ip row)) = true /\
                   conforms (Column "response_time_ms" "FLOAT" "NULLABLE" [])
                     (JFloat (row_response_time_ms row)) = true /\
                   conforms (Column "status_code" "INTEGER" "NULLABLE" [])
                     (JInt (row_status_code row)) = true).
  { repeat split; try reflexivity. destruct (row_client_ip row); reflexivity. }
  destruct Hother as (-> & -> & -> & ->).
  rewrite !andb_true_r. cbn [andb].
  assert (Hwsc : conforms (Column "week_start" "STRING" "REQUIRED" []) (row_week_start row)
                 = true <-> exists s, row_week_start row = JStr s).
  { destruct (row_week_start row); cbn; split; intros H; try discriminate;
      try (destruct H as [s H]; discriminate); eauto. }
  rewrite andb_true_iff, Hwsc. split.
  - intros [H1 H2]. split; [exact H1|].
    intros c Hc Hname. cbn [In] in Hc.
    destruct Hc as [<-|[<-|[<-|[<-|[<-|[<-|[]]]]]]]; try discriminate. exact H2.
  - intros [H1 H2]. split; [exact H1|]. apply H2; [|reflexivity].
    cbn [In]. tauto.
Qed.

Lemma audit_row_against_schema_witness :
  let row := audit_row world_player (post_request week_2024) (JStr "2024-01-01")
               (JArr [player_a]) 1 200 in
  dom (row_dict row) = list_to_set (map column_name table_schema) /\
  required_present table_schema (row_dict row) /\
  row_conforms table_schema (row_dict row) = true.
Proof.
  destruct (audit_row_against_schema cfg0 world_player (post_request week_2024)
              (audit_row world_player (post_request week_2024) (JStr "2024-01-01")
                 (JArr [player_a]) 1 200))
    as (Hdom & Hreq & _ & Hiff).
  - vm_compute. left. reflexivity.
  - split; [exact Hdom|]. split; [exact Hreq|]. apply Hiff. split.
    + eexists. reflexivity.
    + intros c Hc Hname. cbn [In table_schema] in Hc.
      destruct Hc as [<-|[<-|[<-|[<-|[<-|[<-|[]]]]]]]; try discriminate.
      vm_compute. reflexivity.
Defined.

(** A [week_start] that is no string, and predictions that are no list,
    are submitted as they are. *)
Example unchecked_values_submitted :
  let request := post_request (JObj (<["week_start" := JInt 5]> ∅)) in
  exists row,
    audit_attempts (handle cfg0 world_object request).2 = [[row]] /\
    row_week_start row = JInt 5 /\
    row_predictions row = player_a /\
    row_conforms table_schema (row_dict row) = false.
Proof.
  eexists. split; [vm_compute; reflexivity|].
  split; [reflexivity|]. split; [reflexivity|]. vm_compute. reflexivity.
Qed.

(** ** Remaining corners of the handler *)

(** X19. If [response.json()] fails on a 200 answer with an exception that
    is a [RequestException] but no [json.JSONDecodeError], the clause of
    line 88 does not catch it and the transport-error clause does: the
    caller gets 500 "Failed to get predictions" although the upstream
    answered 200, and the row says [status_code = 500], with empty
    [predictions] and an elapsed time taken from a third clock reading. *)
Theorem decode_failure_as_transport_error (cfg : Config) (w : World) (request : Request)
    (response : Response) (e : exn) :
  valid_request request = true ->
  upstream cfg w request = Ok response ->
  status_code response = 200 ->
  json_ response = Raise e ->
  isinstance_JSONDecodeError e = false ->
  isinstance_RequestException e = true ->
  exists row,
    (handle cfg w request).1 = Ok (error_response "Failed to get predictions" 500) /\
    audit_attempts (handle cfg w request).2 = [[row]] /\
    row_status_code row = 500 /\
    row_predictions row = JArr [] /\
    row_response_time_ms row =
      Float64.mul (Float64.sub (time_time w 2) (time_time w 0)) (Float64.of_Z 1000).
Proof.
  intros Hv Hup H200 Hjs Hd He.
  destruct (valid_request_inv _ Hv) as (m & ws & _ & Hj & Hk & _).
  assert (Hws : week_start_of (get_json request) = Some ws)
    by (unfold week_start_of; rewrite Hj; exact Hk).
  rewrite (handle_json_request_exception cfg w request response e ws Hv Hws Hup H200 Hjs Hd He).
  eexists. cbn [fst snd audit_attempts post_event].
  rewrite audit_attempts_sink_error_log. repeat split.
Qed.

Lemma decode_failure_as_transport_error_witness :
  let w := world_up (Ok (response_of 200 "[]" (Raise (RequestException "simplejson")))) in
  exists row,
    (handle cfg0 w (post_request week_2024)).1 =
      Ok (error_response "Failed to get predictions" 500) /\
    audit_attempts (handle cfg0 w (post_request week_2024)).2 = [[row]] /\
    row_status_code row = 500 /\
    row_predictions row = JArr [] /\
    row_response_time_ms row =
      Float64.mul (Float64.sub (time_time w 2) (time_time w 0)) (Float64.of_Z 1000).
Proof.
  apply (decode_failure_as_transport_error cfg0
           (world_up (Ok (response_of 200 "[]" (Raise (RequestException "simplejson")))))
           (post_request week_2024)
           (response_of 200 "[]" (Raise (RequestException "simplejson")))
           (RequestException "simplejson")); vm_compute; reflexivity.
Defined.

(** X20. The answers the handler can give: either the upstream's raw body
    with the upstream's status, for a valid request, or a body of its own,
    which comes with status 204 (preflight, empty body), 400 (a request
    that is no preflight and fails validation) or 500, and with no other
    status. *)
Theorem response_classes (cfg : Config) (w : World) (request : Request) :
  exists b status hdrs,
    (handle cfg w request).1 = Ok (b, status, hdrs) /\
    match b with
    | Bytes raw =>
        valid_request request = true /\
        exists response,
          upstream cfg w request = Ok response /\
          raw = content response /\ status = status_code response
    | Str s =>
        (status = 204 /\ s = EmptyString /\ method request = "OPTIONS") \/
        (status = 400 /\ method request <> "OPTIONS" /\ valid_request request = false) \/
        (status = 500 /\ method request <> "OPTIONS")
    end.
Proof.
  destruct (handle_outcome cfg w request) as (resp & n & evs & -> & Hout).
  destruct Hout; eexists _, _, _; (split; [reflexivity|]); cbn beta iota;
    try (match goal with H : valid_request request = true |- _ =>
           pose proof (valid_request_inv _ H) as (? & ? & Hm & _);
           apply String.eqb_neq in Hm end).
  - left. auto.
  - right; left. repeat split; try assumption. apply valid_request_false; tauto.
  - right; right. auto.
  - right; left. repeat split; try assumption.
    apply valid_request_false. right; right; right; eauto.
  - split; [assumption|]. eexists. repeat split. assumption.
  - right; right. auto.
  - right; right. auto.
  - right; right. auto.
  - right; right. auto.
Qed.
